(** * The real-time event handlers of the chat application (src/app.py)

    A shallow embedding of the Flask-SocketIO event handlers of [app.py]:
    [handle_connect], [handle_authenticate], [handle_join_room],
    [handle_leave_room], [handle_send_message], [handle_typing],
    [handle_stop_typing], [handle_disconnect] and the decorator
    [socketio_token_required], together with the state they read and write:
    the three MongoDB collections, the module-level dictionary
    [active_users], the per-connection Flask session and the Flask-SocketIO
    rooms.

    Handlers are written in a small state-and-exception monad whose results
    carry the list of effects (emissions and database writes) in the order
    in which the code performs them. *)

From Stdlib Require Import ZArith String Ascii List Bool Lia.
From stdpp Require Import base option gmap strings list fin_maps.

Open Scope string_scope.
Open Scope list_scope.

(** ** Python strings *)

Module Py.

(** [str.isspace] on one character.  A character is an 8-bit code point;
    below 256 Python's whitespace code points are 9-13, 28-32, 133 and
    160. *)
Definition isspace (c : ascii) : bool :=
  let n := N_of_ascii c in
  ((9 <=? n) && (n <=? 13) || (28 <=? n) && (n <=? 32)
   || (n =? 133) || (n =? 160))%N.

Fixpoint lstrip (s : string) : string :=
  match s with
  | EmptyString => EmptyString
  | String c s' => if isspace c then lstrip s' else s
  end.

Definition rstrip (s : string) : string :=
  String.rev (lstrip (String.rev s)).

(** [s.strip()] *)
Definition strip (s : string) : string := rstrip (lstrip s).

(** Truth value of a [str]: [not s] holds exactly for the empty string. *)
Definition truthy (s : string) : bool :=
  match s with EmptyString => false | String _ _ => true end.

(** Truth value of the result of [dict.get(key)]: [None] is false. *)
Definition truthy_opt (o : option string) : bool :=
  match o with None => false | Some s => truthy s end.

(** Every character of the string is whitespace. *)
Fixpoint all_space (s : string) : bool :=
  match s with
  | EmptyString => true
  | String c s' => isspace c && all_space s'
  end.

End Py.

(** The payload [data] of a socket event: a dict of string fields;
    [data.get(k)] is the lookup, [None] for a missing key. *)
Abbreviation payload := (gmap string string).

(** ** Documents, events and effects, over the ObjectId type *)

Inductive room_type := public | private.

Inductive dbop :=
  | UsersFindOne | UsersUpdateOne
  | RoomsFindOne | RoomsUpdateOne
  | MessagesInsertOne.

(** Result of [jwt.decode] on a token. *)
Inductive jwt_outcome :=
  | Decoded (user_id : string)
  | ExpiredSignatureError
  | InvalidTokenError.

(** Exceptions the handlers can meet. *)
Inductive exn :=
  | InvalidId (arg : string)
  | PyMongoError (msg : string).

(** The [message] field of an error event: a literal of the source, or
    [str(e)] of a caught exception. *)
Inductive message :=
  | Literal (s : string)
  | StrOf (e : exn).

Section Model.

(** [bson.ObjectId]: the type of identifiers, its parser on strings
    ([None] when the library raises [InvalidId]) and [str(oid)]. *)
Context {oid : Type} `{EqDecision oid}.
Variable ObjectId : string → option oid.
Variable oid_str : oid → string.

(** [jwt.decode(token, JWT_SECRET, algorithms=[JWT_ALGORITHM])] *)
Variable jwt_decode : string → jwt_outcome.

(** *** Documents of the collections *)

Record user_doc := {
  u_id : oid;
  u_username : string;
  u_display_name : string;
  u_is_online : bool;
  u_last_seen : Z
}.

Record member := {
  mb_user_id : oid;
  mb_joined_at : Z;
  mb_role : string
}.

Record room_doc := {
  r_id : oid;
  r_name : string;
  r_type : room_type;
  r_room_id : option string;     (* the 8-character code of a private room *)
  r_members : list member
}.

Record message_doc := {
  m_id : oid;
  m_room_id : oid;
  m_sender_id : oid;
  m_content : string;
  m_message_type : string;
  m_edited : bool;
  m_deleted : bool;
  m_timestamp : Z
}.

(** Values of [active_users] and of [session['auth_data']]. *)
Record user_data := {
  ud_user_id : string;
  ud_username : string;
  ud_display_name : string
}.

Record auth_data := {
  ad_user_id : string;
  ad_username : string
}.

(** *** Outbound events *)

Inductive event :=
  | connected (msg : message)
  | authenticated (msg : message) (id username display_name : string)
  | auth_error (msg : message)
  | error (msg : message)
  | user_online (user_id username display_name : string)
  | user_offline (user_id username : string)
  | room_joined (room_id room_name : string)
  | user_joined_room (user_id username display_name room_id : string)
  | room_left (room_id : string)
  | user_left_room (user_id username display_name room_id : string)
  | new_message (id room_id content : string)
                (sender_id sender_username sender_display_name : string)
                (timestamp : Z)
  | user_typing (user_id username display_name room_id : string)
  | user_stop_typing (user_id username display_name room_id : string).

(** Where an emission is addressed. *)
Inductive target :=
  | ToSelf                       (* emit(...) inside a handler *)
  | ToRoomOthers (room : string) (* emit(..., room=r, include_self=False) *)
  | ToRoom (room : string)       (* socketio.emit(..., room=r) *)
  | ToAll.                       (* socketio.emit(...) *)

(** What a handler does to the outside, in order. *)
Inductive effect :=
  | Emit (e : event) (to : target) (recipients : gset string)
  | UserStatusSet (user : oid) (online : bool) (at_time : Z)
  | MemberPushed (room : oid) (m : member)
  | MessageInserted (m : message_doc).

(** *** State *)

Record state := mkState {
  users_collection : list user_doc;
  rooms_collection : list room_doc;
  messages_collection : list message_doc;
  active_users : gmap string user_data;
  session : gmap string auth_data;
  connections : gset string;
  sio_rooms : gmap string (gset string)
}.

(** What one event's processing takes from outside: the clock, the id the
    driver generates for an inserted document, and which database calls
    fail (with the text of the exception). *)
Record env := mkEnv {
  utcnow : Z;
  fresh_id : oid;
  db_fault : dbop → option string
}.

(** *** The monad of handlers *)

Inductive outcome (A : Type) :=
  | Ret (a : A)
  | Raise (e : exn).
Global Arguments Ret {A} a.
Global Arguments Raise {A} e.

Record result (A : Type) := mkResult {
  res : outcome A;
  final : state;
  effects : list effect
}.
Global Arguments mkResult {A} _ _ _.
Global Arguments res {A} _.
Global Arguments final {A} _.
Global Arguments effects {A} _.

Definition M (A : Type) : Type := state → result A.

Definition ret {A} (a : A) : M A := λ s, mkResult (Ret a) s [].

Definition raise {A} (e : exn) : M A := λ s, mkResult (Raise e) s [].

Definition bind {A B} (c : M A) (k : A → M B) : M B := λ s,
  let r := c s in
  match res r with
  | Ret a =>
      let r' := k a (final r) in
      mkResult (res r') (final r') (effects r ++ effects r')
  | Raise e => mkResult (Raise e) (final r) (effects r)
  end.

(** [try: body except Exception as e: handler(e)] *)
Definition try_except {A} (body : M A) (handler : exn → M A) : M A := λ s,
  let r := body s in
  match res r with
  | Ret a => r
  | Raise e =>
      let r' := handler e (final r) in
      mkResult (res r') (final r') (effects r ++ effects r')
  end.

(** [try: body except InvalidId: handler] *)
Definition try_except_InvalidId {A} (body : M A) (handler : M A) : M A :=
  try_except body
    (λ e, match e with InvalidId _ => handler | _ => raise e end).

Global Instance M_ret : MRet M := @ret.
Global Instance M_bind : MBind M := λ A B k c, bind c k.

(** *** State accessors and the primitives of the libraries *)

Definition set_users (f : list user_doc → list user_doc) (s : state) : state :=
  mkState (f (users_collection s)) (rooms_collection s)
          (messages_collection s) (active_users s) (session s)
          (connections s) (sio_rooms s).

Definition set_rooms (f : list room_doc → list room_doc) (s : state) : state :=
  mkState (users_collection s) (f (rooms_collection s))
          (messages_collection s) (active_users s) (session s)
          (connections s) (sio_rooms s).

Definition set_messages (f : list message_doc → list message_doc)
    (s : state) : state :=
  mkState (users_collection s) (rooms_collection s)
          (f (messages_collection s)) (active_users s) (session s)
          (connections s) (sio_rooms s).

Definition set_active_users
    (f : gmap string user_data → gmap string user_data) (s : state) : state :=
  mkState (users_collection s) (rooms_collection s)
          (messages_collection s) (f (active_users s)) (session s)
          (connections s) (sio_rooms s).

Definition set_session
    (f : gmap string auth_data → gmap string auth_data) (s : state) : state :=
  mkState (users_collection s) (rooms_collection s)
          (messages_collection s) (active_users s) (f (session s))
          (connections s) (sio_rooms s).

Definition set_connections (f : gset string → gset string) (s : state) : state :=
  mkState (users_collection s) (rooms_collection s)
          (messages_collection s) (active_users s) (session s)
          (f (connections s)) (sio_rooms s).

Definition set_sio_rooms
    (f : gmap string (gset string) → gmap string (gset string))
    (s : state) : state :=
  mkState (users_collection s) (rooms_collection s)
          (messages_collection s) (active_users s) (session s)
          (connections s) (f (sio_rooms s)).

(** The first document satisfying [p] is replaced by its image under [f]
    (what [update_one] does to the collection). *)
Fixpoint update_first {A} (p : A → bool) (f : A → A) (l : list A) : list A :=
  match l with
  | [] => []
  | x :: l' => if p x then f x :: l' else x :: update_first p f l'
  end.

(** [{'$set': {'is_online': b, 'last_seen': now}}] on a user document *)
Definition with_status (b : bool) (now : Z) (u : user_doc) : user_doc :=
  {| u_id := u_id u; u_username := u_username u;
     u_display_name := u_display_name u;
     u_is_online := b; u_last_seen := now |}.

(** [{'$push': {'members': m}}] on a room document *)
Definition with_member (m : member) (r : room_doc) : room_doc :=
  {| r_id := r_id r; r_name := r_name r; r_type := r_type r;
     r_room_id := r_room_id r; r_members := r_members r ++ [m] |}.

Definition get : M state := λ s, mkResult (Ret s) s [].

Definition modify (f : state → state) : M unit :=
  λ s, mkResult (Ret tt) (f s) [].

Definition perform (e : effect) : M unit := λ s, mkResult (Ret tt) s [e].

(** [ObjectId(x)], raising [InvalidId] *)
Definition objectid (x : string) : M oid :=
  match ObjectId x with
  | Some o => ret o
  | None => raise (InvalidId x)
  end.

(** [verify_token] of the source *)
Definition verify_token (token : string) : option string :=
  match jwt_decode token with
  | Decoded user_id => Some user_id
  | ExpiredSignatureError => None
  | InvalidTokenError => None
  end.

Section Request.

(** The context of one event: its environment and [request.sid]. *)
Variable E : env.
Variable sid : string.

Definition db_call {A} (op : dbop) (c : M A) : M A :=
  match db_fault E op with
  | Some msg => raise (PyMongoError msg)
  | None => c
  end.

(** [users_collection.find_one({'_id': o})] *)
Definition users_find_one (o : oid) : M (option user_doc) :=
  db_call UsersFindOne
    (s ← get;
     mret (find (λ u, bool_decide (u_id u = o)) (users_collection s))).

(** [users_collection.update_one({'_id': o},
      {'$set': {'is_online': b, 'last_seen': datetime.utcnow()}})] *)
Definition users_set_status (o : oid) (b : bool) : M unit :=
  db_call UsersUpdateOne
    (modify (set_users (update_first
       (λ u, bool_decide (u_id u = o)) (with_status b (utcnow E))));;
     perform (UserStatusSet o b (utcnow E))).

(** [rooms_collection.find_one({'_id': o})] *)
Definition rooms_find_one (o : oid) : M (option room_doc) :=
  db_call RoomsFindOne
    (s ← get;
     mret (find (λ r, bool_decide (r_id r = o)) (rooms_collection s))).

(** [rooms_collection.update_one({'_id': o}, {'$push': {'members': m}})] *)
Definition rooms_push_member (o : oid) (m : member) : M unit :=
  db_call RoomsUpdateOne
    (modify (set_rooms (update_first
       (λ r, bool_decide (r_id r = o)) (with_member m)));;
     perform (MemberPushed o m)).

(** [messages_collection.insert_one(doc).inserted_id]; [m_id doc] is
    the identifier the driver gives the document. *)
Definition messages_insert_one (doc : message_doc) : M oid :=
  db_call MessagesInsertOne
    (modify (set_messages (λ l, l ++ [doc]));;
     perform (MessageInserted doc);;
     mret (m_id doc)).

(** Who receives an emission addressed to [t], in state [s]. The rooms are
    those entered through [join_room]. The room that Socket.IO keeps for
    each connection under the connection's own identifier is not among
    them: an emission to the connection itself reaches it, and what is
    stated of an event that names a room is stated for names that are not
    identifiers of connections. *)
Definition deliver (s : state) (t : target) : gset string :=
  match t with
  | ToSelf => {[ sid ]}
  | ToRoomOthers r => (sio_rooms s !!! r) ∖ {[ sid ]}
  | ToRoom r => sio_rooms s !!! r
  | ToAll => connections s
  end.

Definition emit_to (t : target) (e : event) : M unit :=
  s ← get; perform (Emit e t (deliver s t)).

(** [emit(e)] inside a handler: to the connection of the event. *)
Definition emit (e : event) : M unit := emit_to ToSelf e.

(** [join_room(r)] and [leave_room(r)] of Flask-SocketIO *)
Definition join_room (r : string) : M unit :=
  modify (set_sio_rooms (λ m, <[ r := {[ sid ]} ∪ (m !!! r) ]> m)).

Definition leave_room (r : string) : M unit :=
  modify (set_sio_rooms (λ m, <[ r := (m !!! r) ∖ {[ sid ]} ]> m)).

(** *** The handlers *)

(** [socketio_token_required]: the decorator of every handler but
    [connect], [authenticate] and [disconnect]. *)
Definition socketio_token_required
    (f : user_doc → payload → M unit) (data : payload) : M unit :=
  s ← get;
  let auth_data := session s !! sid in
  match auth_data with
  | None => emit (error (Literal "Authentication required"))
  | Some auth_data =>
      if negb (Py.truthy (ad_user_id auth_data)) then
        emit (error (Literal "Authentication required"))
      else
        found ← try_except_InvalidId
          (o ← objectid (ad_user_id auth_data);
           user ← users_find_one o;
           match user with
           | None =>
               emit (error (Literal "User not found"));; mret None
           | Some user => mret (Some user)
           end)
          (emit (error (Literal "Invalid user ID"));; mret None);
        match found with
        | None => mret tt
        | Some user => f user data
        end
  end.

Definition handle_connect : M unit :=
  emit (connected (Literal "Connected to server")).

Definition handle_authenticate (data : payload) : M unit :=
  try_except
    (let token := data !! "token" in
     if negb (Py.truthy_opt token) then
       emit (auth_error (Literal "Token required"))
     else
       let user_id := verify_token (default "" token) in
       if negb (Py.truthy_opt user_id) then
         emit (auth_error (Literal "Invalid token"))
       else
         let user_id := default "" user_id in
         o ← objectid user_id;
         user ← users_find_one o;
         match user with
         | None => emit (auth_error (Literal "User not found"))
         | Some user =>
             modify (set_session
               (<[ sid := {| ad_user_id := user_id;
                             ad_username := u_username user |} ]>));;
             users_set_status (u_id user) true;;
             modify (set_active_users
               (<[ sid := {| ud_user_id := user_id;
                             ud_username := u_username user;
                             ud_display_name := u_display_name user |} ]>));;
             emit (authenticated (Literal "Authentication successful")
                     (oid_str (u_id user)) (u_username user)
                     (u_display_name user));;
             emit_to ToAll
               (user_online (oid_str (u_id user)) (u_username user)
                  (u_display_name user))
         end)
    (λ e, emit (auth_error (StrOf e))).

Definition handle_join_room (user : user_doc) (data : payload) : M unit :=
  try_except
    (let room_id := data !! "room_id" in
     if negb (Py.truthy_opt room_id) then
       emit (error (Literal "Room ID required"))
     else
       let room_id := default "" room_id in
       parsed ← try_except_InvalidId
         (o ← objectid room_id; mret (Some o))
         (emit (error (Literal "Invalid room ID"));; mret None);
       match parsed with
       | None => mret tt
       | Some room_object_id =>
           room ← rooms_find_one room_object_id;
           match room with
           | None => emit (error (Literal "Room not found"))
           | Some room =>
               let is_member :=
                 existsb (λ m, bool_decide (mb_user_id m = u_id user))
                         (r_members room) in
               (if negb is_member then
                  rooms_push_member room_object_id
                    {| mb_user_id := u_id user;
                       mb_joined_at := utcnow E;
                       mb_role := "member" |}
                else mret tt);;
               join_room room_id;;
               emit (room_joined room_id (r_name room));;
               emit_to (ToRoomOthers room_id)
                 (user_joined_room (oid_str (u_id user)) (u_username user)
                    (u_display_name user) room_id)
           end
       end)
    (λ e, emit (error (StrOf e))).

Definition handle_leave_room (user : user_doc) (data : payload) : M unit :=
  try_except
    (let room_id := data !! "room_id" in
     if negb (Py.truthy_opt room_id) then
       emit (error (Literal "Room ID required"))
     else
       let room_id := default "" room_id in
       leave_room room_id;;
       emit (room_left room_id);;
       emit_to (ToRoomOthers room_id)
         (user_left_room (oid_str (u_id user)) (u_username user)
            (u_display_name user) room_id))
    (λ e, emit (error (StrOf e))).

Definition handle_send_message (user : user_doc) (data : payload) : M unit :=
  try_except
    (let room_id := data !! "room_id" in
     let content := Py.strip (default "" (data !! "content")) in
     if negb (Py.truthy_opt room_id) || negb (Py.truthy content) then
       emit (error (Literal "Room ID and content are required"))
     else
       let room_id := default "" room_id in
       parsed ← try_except_InvalidId
         (o ← objectid room_id; mret (Some o))
         (emit (error (Literal "Invalid room ID"));; mret None);
       match parsed with
       | None => mret tt
       | Some room_object_id =>
           room ← rooms_find_one room_object_id;
           match room with
           | None => emit (error (Literal "Room not found"))
           | Some room =>
               let message_doc :=
                 {| m_id := fresh_id E;
                    m_room_id := room_object_id;
                    m_sender_id := u_id user;
                    m_content := content;
                    m_message_type := "text";
                    m_edited := false;
                    m_deleted := false;
                    m_timestamp := utcnow E |} in
               message_id ← messages_insert_one message_doc;
               emit_to (ToRoom room_id)
                 (new_message (oid_str message_id) room_id content
                    (oid_str (u_id user)) (u_username user)
                    (u_display_name user) (m_timestamp message_doc))
           end
       end)
    (λ e, emit (error (StrOf e))).

Definition handle_typing (user : user_doc) (data : payload) : M unit :=
  let room_id := data !! "room_id" in
  if Py.truthy_opt room_id then
    let room_id := default "" room_id in
    emit_to (ToRoomOthers room_id)
      (user_typing (oid_str (u_id user)) (u_username user)
         (u_display_name user) room_id)
  else mret tt.

Definition handle_stop_typing (user : user_doc) (data : payload) : M unit :=
  let room_id := data !! "room_id" in
  if Py.truthy_opt room_id then
    let room_id := default "" room_id in
    emit_to (ToRoomOthers room_id)
      (user_stop_typing (oid_str (u_id user)) (u_username user)
         (u_display_name user) room_id)
  else mret tt.

Definition handle_disconnect : M unit :=
  s ← get;
  match active_users s !! sid with
  | Some user_data =>
      let user_id := ud_user_id user_data in
      o ← objectid user_id;
      users_set_status o false;;
      emit_to ToAll (user_offline user_id (ud_username user_data));;
      modify (set_active_users (delete sid))
  | None => mret tt
  end.

(** *** What Flask-SocketIO itself does around the handlers *)

(** A transport connect registers the connection. *)
Definition sio_connect : M unit :=
  modify (set_connections (λ c, {[ sid ]} ∪ c)).

(** The end of a connection is the end of its transport: after the
    disconnect handler the server drops the connection from every room, and
    its session goes with the transport. A client that leaves the namespace
    and enters it again on the same transport, keeping the session, is not
    among the events modelled. *)
Definition sio_disconnect : M unit :=
  modify (set_connections (λ c, c ∖ {[ sid ]}));;
  modify (set_sio_rooms (fmap (λ members, members ∖ {[ sid ]})));;
  modify (set_session (delete sid)).

(** The inbound events of a connection and the handler registered with
    [@socketio.on] for each. *)
Inductive inbound :=
  | Connect
  | Authenticate (data : payload)
  | JoinRoom (data : payload)
  | LeaveRoom (data : payload)
  | SendMessage (data : payload)
  | Typing (data : payload)
  | StopTyping (data : payload)
  | Disconnect.

Definition dispatch (i : inbound) : M unit :=
  match i with
  | Connect => sio_connect;; handle_connect
  | Authenticate data => handle_authenticate data
  | JoinRoom data => socketio_token_required handle_join_room data
  | LeaveRoom data => socketio_token_required handle_leave_room data
  | SendMessage data => socketio_token_required handle_send_message data
  | Typing data => socketio_token_required handle_typing data
  | StopTyping data => socketio_token_required handle_stop_typing data
  | Disconnect => handle_disconnect;; sio_disconnect
  end.

End Request.

(** A run of the server in which the events are handled one at a time,
    each to its end before the next, each with its environment and the
    connection it comes from. The server handles events on threads: a run
    is one of its schedules, the one in which no two handlers overlap. *)
Fixpoint run (events : list (env * string * inbound)) (s : state)
    : state * list effect :=
  match events with
  | [] => (s, [])
  | (E, sid, i) :: rest =>
      let r := dispatch E sid i s in
      let '(s', out) := run rest (final r) in
      (s', effects r ++ out)
  end.

(** *** Vocabulary of the statements *)

(** The identity a connection is bound to: the stored user that the
    [auth_data] of its session resolves to. *)
Definition bound_user (s : state) (sid : string) : option user_doc :=
  match session s !! sid with
  | Some a =>
      if Py.truthy (ad_user_id a) then
        match ObjectId (ad_user_id a) with
        | Some o => find (λ u, bool_decide (u_id u = o)) (users_collection s)
        | None => None
        end
      else None
  | None => None
  end.

(** The live subscribers of a Flask-SocketIO room. *)
Definition subscribers_of (s : state) (room : string) : gset string :=
  sio_rooms s !!! room.

(** The persisted members of a room document. *)
Definition is_member (user : oid) (room : room_doc) : bool :=
  existsb (λ m, bool_decide (mb_user_id m = user)) (r_members room).

(** The access check of the REST route [get_room_messages]
    ([if not is_member and room['type'] == 'private']: 403). *)
Definition get_room_messages_denied (user : user_doc) (room : room_doc) : bool :=
  negb (is_member (u_id user) room)
  && match r_type room with private => true | public => false end.

(** The events guarded by [socketio_token_required]. *)
Inductive guarded := GJoinRoom | GLeaveRoom | GSendMessage | GTyping | GStopTyping.

Definition guarded_inbound (g : guarded) (data : payload) : inbound :=
  match g with
  | GJoinRoom => JoinRoom data
  | GLeaveRoom => LeaveRoom data
  | GSendMessage => SendMessage data
  | GTyping => Typing data
  | GStopTyping => StopTyping data
  end.

(** The content of a [send_message] payload is absent, empty or made of
    whitespace only. *)
Definition blank_content (data : payload) : bool :=
  match data !! "content" with
  | None => true
  | Some c => Py.all_space c
  end.

(** Classification of effects. *)
Definition is_error_to_self (sid : string) (e : effect) : Prop :=
  ∃ m, e = Emit (error m) ToSelf {[ sid ]}.

Definition is_new_message (e : effect) : bool :=
  match e with
  | Emit (new_message _ _ _ _ _ _ _) _ _ => true
  | _ => false
  end.

Definition is_user_left_room (e : effect) : bool :=
  match e with
  | Emit (user_left_room _ _ _ _) _ _ => true
  | _ => false
  end.

Definition is_user_offline (e : effect) : bool :=
  match e with
  | Emit (user_offline _ _) _ _ => true
  | _ => false
  end.

Definition is_user_online (e : effect) : bool :=
  match e with
  | Emit (user_online _ _ _) _ _ => true
  | _ => false
  end.

Definition is_emit (e : effect) : bool :=
  match e with
  | Emit _ _ _ => true
  | _ => false
  end.

(** The persisted part of the state: the three collections. *)
Definition persisted (s : state)
    : list user_doc * list room_doc * list message_doc :=
  (users_collection s, rooms_collection s, messages_collection s).

(** The message document that [handle_send_message] builds. *)
Definition message_of (E : env) (room_object_id : oid) (u : user_doc)
    (content : string) : message_doc :=
  {| m_id := fresh_id E; m_room_id := room_object_id;
     m_sender_id := u_id u; m_content := content;
     m_message_type := "text"; m_edited := false; m_deleted := false;
     m_timestamp := utcnow E |}.

(** The [new_message] broadcast that follows the insertion of [doc]. *)
Definition broadcast_of (doc : message_doc) (u : user_doc)
    (room_id : string) (s : state) : effect :=
  Emit (new_message (oid_str (m_id doc)) room_id (m_content doc)
          (oid_str (u_id u)) (u_username u) (u_display_name u)
          (m_timestamp doc))
       (ToRoom room_id) (subscribers_of s room_id).

(** The sids of [active_users] bound to the identity [user_id]. *)
Definition connections_of (s : state) (user_id : string) : gset string :=
  dom (filter (λ kv, ud_user_id kv.2 = user_id) (active_users s)).

End Model.

(** ** A concrete deployment, for evaluating the handlers *)

Module Demo.

Definition is_hex (c : ascii) : bool :=
  let n := N_of_ascii c in
  ((48 <=? n) && (n <=? 57) || (97 <=? n) && (n <=? 102))%N.

Fixpoint all_hex (s : string) : bool :=
  match s with
  | EmptyString => true
  | String c s' => is_hex c && all_hex s'
  end.

(** Identifiers are their 24-digit lower-case hexadecimal text. *)
Definition ObjectId (x : string) : option string :=
  if (String.length x =? 24)%nat && all_hex x then Some x else None.

Definition oid_str (o : string) : string := o.

Definition alice_id := "0000000000000000000000a1".
Definition bob_id := "0000000000000000000000b2".
Definition general_id := "00000000000000000000c001".
Definition secret_id := "00000000000000000000c002".

(** Three tokens verify; every other token is invalid. *)
Definition jwt_decode (token : string) : jwt_outcome :=
  if String.eqb token "token-of-alice" then Decoded alice_id
  else if String.eqb token "token-of-bob" then Decoded bob_id
  else if String.eqb token "old-token" then ExpiredSignatureError
  else InvalidTokenError.

Definition alice : user_doc :=
  {| u_id := alice_id; u_username := "alice"; u_display_name := "Alice";
     u_is_online := false; u_last_seen := 0 |}.

Definition bob : user_doc :=
  {| u_id := bob_id; u_username := "bob"; u_display_name := "Bob";
     u_is_online := false; u_last_seen := 0 |}.

(** A public room and a private room, both created by alice. *)
Definition general : room_doc :=
  {| r_id := general_id; r_name := "General"; r_type := public;
     r_room_id := None;
     r_members := [ {| mb_user_id := alice_id; mb_joined_at := 0;
                       mb_role := "admin" |} ] |}.

Definition secret : room_doc :=
  {| r_id := secret_id; r_name := "Secret"; r_type := private;
     r_room_id := Some "AB12CD34";
     r_members := [ {| mb_user_id := alice_id; mb_joined_at := 0;
                       mb_role := "admin" |} ] |}.

(** The server before any connection. *)
Definition s0 : state :=
  mkState [alice; bob] [general; secret] [] ∅ ∅ ∅ ∅.

(** An environment in which the database answers. *)
Definition E (now : Z) (new_id : string) : env :=
  mkEnv now new_id (λ _, None).

(** An environment in which [insert_one] raises. *)
Definition E_insert_down (now : Z) (new_id : string) : env :=
  mkEnv now new_id
    (λ op, match op with
           | MessagesInsertOne => Some "connection refused"
           | _ => None
           end).

Definition token (t : string) : payload := {[ "token" := t ]}.
Definition room (r : string) : payload := {[ "room_id" := r ]}.
Definition text (r c : string) : payload :=
  {[ "room_id" := r; "content" := c ]}.

Definition run := run ObjectId oid_str jwt_decode.
Definition dispatch := dispatch ObjectId oid_str jwt_decode.

(** alice connects as [s1] and bob as [s2]; both authenticate. *)
Definition s_two_users : state :=
  fst (run [ (E 1 "", "s1", Connect);
             (E 2 "", "s1", Authenticate (token "token-of-alice"));
             (E 3 "", "s2", Connect);
             (E 4 "", "s2", Authenticate (token "token-of-bob")) ] s0).

(** As above, and both have joined the public room. *)
Definition s_both_in_general : state :=
  fst (run [ (E 5 "", "s1", JoinRoom (room general_id));
             (E 6 "", "s2", JoinRoom (room general_id)) ] s_two_users).

(** As [s_two_users], and alice has joined the public room. *)
Definition s_alice_in_general : state :=
  fst (run [ (E 5 "", "s1", JoinRoom (room general_id)) ] s_two_users).

(** As [s_two_users], and alice has joined the private room she owns. *)
Definition s_alice_in_secret : state :=
  fst (run [ (E 5 "", "s1", JoinRoom (room secret_id)) ] s_two_users).

(** alice is authenticated on [s1]; a second connection [s2] is open. *)
Definition s_second_tab_open : state :=
  fst (run [ (E 1 "", "s1", Connect);
             (E 2 "", "s1", Authenticate (token "token-of-alice"));
             (E 3 "", "s2", Connect) ] s0).

(** alice holds two connections, [s1] and [s2], both authenticated. *)
Definition s_two_tabs : state :=
  final (dispatch (E 4 "") "s2" (Authenticate (token "token-of-alice"))
           s_second_tab_open).

(** The identities as stored once authenticated. *)
Definition alice_online : user_doc := with_status true 2 alice.
Definition bob_online : user_doc := with_status true 4 bob.

Definition bob_member (joined_at : Z) : member :=
  {| mb_user_id := bob_id; mb_joined_at := joined_at; mb_role := "member" |}.

Definition hi_id := "00000000000000000000e001".

End Demo.

(** ** A program logic for the handlers *)

Section Logic.

Context {oid : Type} `{EqDecision oid}.

(** The result [r] of a continuation, after the effects [es] that came
    before it. *)
Definition after {A} (es : list (@effect oid)) (r : @result oid A)
    : result A :=
  mkResult (res r) (final r) (es ++ effects r).

(** [wp c s Q]: the result of running [c] from [s] satisfies [Q]. *)
Definition wp {A} (c : @M oid A) (s : state) (Q : result A → Prop) : Prop :=
  Q (c s).

(** *** Relations between the state before and after an event *)

(** The persisted identity of a user: everything but the status fields. *)
Definition same_user (u u' : @user_doc oid) : Prop :=
  u_id u' = u_id u
  ∧ u_username u' = u_username u
  ∧ u_display_name u' = u_display_name u.

(** The room [r'] is [r] with members pushed at the end, if any. *)
Definition room_grown (r r' : @room_doc oid) : Prop :=
  r_id r' = r_id r
  ∧ r_name r' = r_name r
  ∧ r_type r' = r_type r
  ∧ r_room_id r' = r_room_id r
  ∧ r_members r `prefix_of` r_members r'.

(** Nothing persisted is lost or rewritten between [s] and [s']: the same
    users and the same rooms in the same order, rooms with the members they
    had (and possibly more), and the messages of [s] first among those of
    [s']. *)
Definition persisted_grows (s s' : @state oid) : Prop :=
  Forall2 same_user (users_collection s) (users_collection s')
  ∧ Forall2 room_grown (rooms_collection s) (rooms_collection s')
  ∧ messages_collection s `prefix_of` messages_collection s'.

(** What belongs to the connections other than [sid] is the same in [s]
    and [s']. *)
Definition others_untouched (sid : string) (s s' : @state oid) : Prop :=
  ∀ sid', sid' ≠ sid →
    session s' !! sid' = session s !! sid'
    ∧ active_users s' !! sid' = active_users s !! sid'
    ∧ (sid' ∈ connections s' ↔ sid' ∈ connections s)
    ∧ ∀ room, sid' ∈ subscribers_of s' room ↔ sid' ∈ subscribers_of s room.

(** No room lists a user twice among its members. *)
Definition members_distinct (s : @state oid) : Prop :=
  Forall (λ r, NoDup (map mb_user_id (r_members r))) (rooms_collection s).

End Logic.

(** ** More of the concrete deployment *)

Module Demo2.

(** Two more tokens verify: one to an identifier that is no ObjectId, one
    to the identifier of no stored user. *)
Definition nobody_id := "0000000000000000000000ff".

Definition jwt_decode (token : string) : jwt_outcome :=
  if String.eqb token "token-with-bad-id" then Decoded "not-an-object-id"
  else if String.eqb token "token-of-nobody" then Decoded nobody_id
  else Demo.jwt_decode token.

Definition dispatch := dispatch Demo.ObjectId Demo.oid_str jwt_decode.

(** An environment in which [update_one] on the users raises. *)
Definition E_update_down (now : Z) : env :=
  mkEnv now ""
    (λ op, match op with
           | UsersUpdateOne => Some "connection refused"
           | _ => None
           end).

(** A server on which connection [s1] carries a session whose user id is
    no ObjectId, and connection [s2] the session of a user that is not
    stored. *)
Definition s_stale_sessions : state :=
  mkState [Demo.alice] [Demo.general] [] ∅
    {[ "s1" := {| ad_user_id := "not-an-object-id"; ad_username := "x" |};
       "s2" := {| ad_user_id := Demo.bob_id; ad_username := "bob" |} ]}
    {[ "s1"; "s2" ]} ∅.

Definition unknown_room := "00000000000000000000c0ff".

(** alice, on [s1], has joined the public room; the connection [s2] is open
    and has not authenticated. *)
Definition s_guest_connected : state :=
  fst (Demo.run [ (Demo.E 4 "", "s1", JoinRoom (Demo.room Demo.general_id)) ]
         Demo.s_second_tab_open).

(** bob's authenticate on [s2], arriving while [update_one] on the users
    raises. *)
Definition refused_authenticate : result unit :=
  Demo.dispatch (E_update_down 5) "s2"
    (Authenticate (Demo.token "token-of-bob")) s_guest_connected.

Definition hi_from_bob : message_doc :=
  {| m_id := Demo.hi_id; m_room_id := Demo.general_id;
     m_sender_id := Demo.bob_id; m_content := "hi";
     m_message_type := "text"; m_edited := false; m_deleted := false;
     m_timestamp := 6 |}.

End Demo2.

(** ** The REST side: token_required, generate_room_id, join_room_by_id
       and create_room *)

(** [s[n:]] *)
Fixpoint str_drop (n : nat) (s : string) : string :=
  match n, s with
  | O, _ => s
  | S n', EmptyString => EmptyString
  | S n', String _ s' => str_drop n' s'
  end.

(** [string.ascii_uppercase + string.digits] *)
Definition characters : string := "ABCDEFGHIJKLMNOPQRSTUVWXYZ0123456789".

(** [characters[i]], the value of [random.choice(characters)] when the
    generator draws the index [i] (below 36). *)
Definition choice (i : nat) : ascii :=
  match String.get i characters with
  | Some c => c
  | None => "A"%char
  end.

(** The characters of [characters]. *)
Definition is_code_char (c : ascii) : bool :=
  let n := N_of_ascii c in
  ((65 <=? n) && (n <=? 90) || (48 <=? n) && (n <=? 57))%N.

Fixpoint all_code_chars (s : string) : bool :=
  match s with
  | EmptyString => true
  | String c s' => is_code_char c && all_code_chars s'
  end.

Section Rest.

Context {oid : Type} `{EqDecision oid}.
Variable ObjectId : string → option oid.
Variable oid_str : oid → string.
Variable jwt_decode : string → jwt_outcome.

(** [str.upper] *)
Variable upper : string → string.

(** A room document with the fields that only the REST routes read or
    write, around the fields shared with the socket handlers. *)
Record room_record := mkRoomRecord {
  rr_room : @room_doc oid;
  rr_description : string;
  rr_owner_id : oid;
  rr_max_members : option string;
  rr_is_active : bool;
  rr_created_at : Z;
  rr_updated_at : Z
}.

(** JSON bodies of the responses. *)
Inductive rest_body :=
  | body_error (error : message)
  | body_room (msg : string) (id name : string)
              (description : option string) (type : option room_type)
              (room_id : option string)
  | body_messages (messages : list (string * string
                                    * option (string * string * string)
                                    * Z * bool)).

Record response := mkResponse {
  resp_status : Z;
  resp_body : rest_body
}.

(** *** token_required *)

(** What the decorator of the REST routes does with a request: answer it
    itself, run the route with the user of the token, or let an exception of
    the store escape. *)
Inductive guarded_request :=
  | Rejected (r : response)
  | Passed (current_user : @user_doc oid)
  | Crashed (e : exn).

Definition token_required (E : @env oid) (users : list (@user_doc oid))
    (authorization : option string) : guarded_request :=
  let token := authorization in
  if negb (Py.truthy_opt token) then
    Rejected (mkResponse 401 (body_error (Literal "Token is missing")))
  else
    let token := default "" token in
    let token :=
      if String.prefix "Bearer " token then str_drop 7 token else token in
    let user_id := verify_token jwt_decode token in
    if negb (Py.truthy_opt user_id) then
      Rejected (mkResponse 401 (body_error (Literal "Token is invalid")))
    else
      match ObjectId (default "" user_id) with
      | None =>
          Rejected (mkResponse 401 (body_error (Literal "Invalid user ID")))
      | Some o =>
          match db_fault E UsersFindOne with
          | Some msg => Crashed (PyMongoError msg)
          | None =>
              match find (λ u, bool_decide (u_id u = o)) users with
              | None =>
                  Rejected
                    (mkResponse 401 (body_error (Literal "User not found")))
              | Some user => Passed user
              end
          end
      end.

(** *** generate_room_id *)

(** [''.join(random.choice(characters) for _ in range(8))], with the
    indices the generator draws from position [k] on. *)
Definition candidate (rand : nat → nat) (k : nat) : string :=
  string_of_list_ascii (map (λ j, choice (rand (k + j))) (seq 0 8)).

(** [rooms_collection.find_one({'room_id': c})] finds a room. *)
Definition code_taken (rooms : list room_record) (c : string) : bool :=
  existsb (λ r, bool_decide (r_room_id (rr_room r) = Some c)) rooms.

(** The loop of [generate_room_id], for at most [attempts] rounds; [None]
    when none of them draws a free identifier. The lookups are those of a
    store that answers; [create_room] handles the one that raises. *)
Fixpoint generate_room_id (attempts : nat) (rand : nat → nat) (k : nat)
    (rooms : list room_record) : option string :=
  match attempts with
  | O => None
  | S attempts' =>
      let room_id := candidate rand k in
      if negb (code_taken rooms room_id) then Some room_id
      else generate_room_id attempts' rand (k + 8) rooms
  end.

(** *** join_room_by_id *)

Definition rr_push_member (m : @member oid) (r : room_record) : room_record :=
  mkRoomRecord (with_member m (rr_room r)) (rr_description r) (rr_owner_id r)
    (rr_max_members r) (rr_is_active r) (rr_created_at r) (rr_updated_at r).

(** The filter [{'room_id': c, 'type': 'private', 'is_active': True}]. *)
Definition private_room_with_code (c : string) (r : room_record) : bool :=
  bool_decide (r_room_id (rr_room r) = Some c)
  && match r_type (rr_room r) with private => true | public => false end
  && rr_is_active r.

Definition join_room_by_id (E : @env oid) (user : @user_doc oid)
    (data : option payload) (rooms : list room_record)
    : response * list room_record :=
  let data' := default ∅ data in
  if negb (bool_decide (is_Some data ∧ data' ≠ ∅))
     || negb (Py.truthy_opt (data' !! "room_id")) then
    (mkResponse 400 (body_error (Literal "Room ID is required")), rooms)
  else
    let room_id := upper (Py.strip (default "" (data' !! "room_id"))) in
    if negb (String.length room_id =? 8)%nat then
      (mkResponse 400
         (body_error
            (Literal
               "Invalid room ID format. Room ID must be 8 characters long.")),
       rooms)
    else
      match db_fault E RoomsFindOne with
      | Some msg =>
          (mkResponse 500 (body_error (StrOf (PyMongoError msg))), rooms)
      | None =>
          match find (private_room_with_code room_id) rooms with
          | None =>
              (mkResponse 404
                 (body_error
                    (Literal
                       "Room not found. Please check the Room ID and try again.")),
               rooms)
          | Some room =>
              if is_member (u_id user) (rr_room room) then
                (mkResponse 200
                   (body_room "You are already a member of this room"
                      (oid_str (r_id (rr_room room))) (r_name (rr_room room))
                      None None (Some room_id)),
                 rooms)
              else
                match db_fault E RoomsUpdateOne with
                | Some msg =>
                    (mkResponse 500 (body_error (StrOf (PyMongoError msg))),
                     rooms)
                | None =>
                    (mkResponse 200
                       (body_room "Successfully joined the private room!"
                          (oid_str (r_id (rr_room room)))
                          (r_name (rr_room room))
                          (Some (rr_description room)) None (Some room_id)),
                     update_first
                       (λ r, bool_decide
                               (r_id (rr_room r) = r_id (rr_room room)))
                       (rr_push_member
                          {| mb_user_id := u_id user;
                             mb_joined_at := utcnow E;
                             mb_role := "member" |})
                       rooms)
                end
          end
      end.

(** *** create_room *)

(** [room_type not in ['public', 'private']] *)
Definition parse_room_type (t : string) : option room_type :=
  if String.eqb t "public" then Some public
  else if String.eqb t "private" then Some private
  else None.

(** [rooms_collection.find_one({'name': name, 'type': 'public'})] finds a
    room. *)
Definition public_name_taken (rooms : list room_record) (name : string)
    : bool :=
  existsb
    (λ r, bool_decide (r_name (rr_room r) = name)
          && match r_type (rr_room r) with public => true | private => false end)
    rooms.

(** The document [room_doc] of the route; the three calls of
    [datetime.utcnow()] read the clock of the request. *)
Definition new_room (E : @env oid) (user : @user_doc oid)
    (name description : string) (ty : room_type) (room_id : option string)
    (max_members : option string) : room_record :=
  mkRoomRecord
    {| r_id := fresh_id E; r_name := name; r_type := ty;
       r_room_id := room_id;
       r_members := [ {| mb_user_id := u_id user; mb_joined_at := utcnow E;
                         mb_role := "admin" |} ] |}
    description (u_id user) max_members true (utcnow E) (utcnow E).

(** The route. [insert_fault] is the exception [insert_one] raises, if any;
    [attempts] and [rand] are those of [generate_room_id], and the result is
    [None] when its loop does not end within [attempts] rounds. *)
Definition create_room (E : @env oid) (insert_fault : option string)
    (attempts : nat) (rand : nat → nat) (user : @user_doc oid)
    (data : option payload) (rooms : list room_record)
    : option (response * list room_record) :=
  let data' := default ∅ data in
  if negb (bool_decide (is_Some data ∧ data' ≠ ∅))
     || negb (Py.truthy_opt (data' !! "name")) then
    Some (mkResponse 400 (body_error (Literal "Room name is required")), rooms)
  else
    let name := Py.strip (default "" (data' !! "name")) in
    let description := Py.strip (default "" (data' !! "description")) in
    let room_type := default "public" (data' !! "type") in
    match parse_room_type room_type with
    | None =>
        Some (mkResponse 400
                (body_error (Literal "Room type must be public or private")),
              rooms)
    | Some ty =>
        let insert (room_id : option string) :=
          match insert_fault with
          | Some msg =>
              (mkResponse 500 (body_error (StrOf (PyMongoError msg))), rooms)
          | None =>
              (mkResponse 201
                 (body_room "Room created successfully"
                    (oid_str (fresh_id E)) name (Some description) (Some ty)
                    room_id),
               rooms ++ [new_room E user name description ty room_id
                           (data' !! "max_members")])
          end in
        match db_fault E RoomsFindOne with
        | Some msg =>
            Some (mkResponse 500 (body_error (StrOf (PyMongoError msg))),
                  rooms)
        | None =>
            match ty with
            | public =>
                if public_name_taken rooms name then
                  Some (mkResponse 409
                          (body_error
                             (Literal "Public room name already exists")),
                        rooms)
                else Some (insert None)
            | private =>
                room_id ← generate_room_id attempts rand 0 rooms;
                Some (insert (Some room_id))
            end
        end
    end.

(** *** Invariants of the rooms collection *)

(** The codes of the rooms that have one. *)
Definition room_codes (rooms : list room_record) : list string :=
  omap (λ r, r_room_id (rr_room r)) rooms.

(** The names of the public rooms. *)
Definition public_names (rooms : list room_record) : list string :=
  omap (λ r, match r_type (rr_room r) with
             | public => Some (r_name (rr_room r))
             | private => None
             end) rooms.

(** The room [r'] is [r] with members pushed at the end, if any; nothing
    else of the document differs. *)
Definition record_grown (r r' : room_record) : Prop :=
  room_grown (rr_room r) (rr_room r')
  ∧ rr_description r' = rr_description r
  ∧ rr_owner_id r' = rr_owner_id r
  ∧ rr_max_members r' = rr_max_members r
  ∧ rr_is_active r' = rr_is_active r
  ∧ rr_created_at r' = rr_created_at r
  ∧ rr_updated_at r' = rr_updated_at r.

(** No room lists a user twice among its members. *)
Definition records_members_distinct (rooms : list room_record) : Prop :=
  Forall (λ r, NoDup (map mb_user_id (r_members (rr_room r)))) rooms.

End Rest.

(** ** The REST side on the concrete deployment *)

Module DemoRest.

(** [str.upper] on ASCII text. *)
Definition upper_char (c : ascii) : ascii :=
  let n := N_of_ascii c in
  if ((97 <=? n) && (n <=? 122))%N then ascii_of_N (n - 32) else c.

Fixpoint upper (s : string) : string :=
  match s with
  | EmptyString => EmptyString
  | String c s' => String (upper_char c) (upper s')
  end.

(** The documents of the two rooms of [Demo], as the REST routes see
    them. *)
Definition general : room_record :=
  mkRoomRecord Demo.general "Everyone" Demo.alice_id None true 0 0.

Definition secret : room_record :=
  mkRoomRecord Demo.secret "Invitation only" Demo.alice_id None true 0 0.

Definition rooms : list room_record := [general; secret].

(** A generator whose first eight draws spell the code of [secret], and
    whose next draws walk through the alphabet. *)
Definition rand (n : nat) : nat :=
  match n with
  | 0 => 0 | 1 => 1 | 2 => 27 | 3 => 28 | 4 => 2 | 5 => 3 | 6 => 29 | 7 => 30
  | _ => n
  end.

Definition new_private : option payload :=
  Some {[ "name" := " Cellar "; "type" := "private" ]}.

Definition new_public (name : string) : option payload :=
  Some {[ "name" := name ]}.

Definition code (c : string) : option payload := Some {[ "room_id" := c ]}.

Definition token_required :=
  token_required Demo.ObjectId Demo.jwt_decode.
Definition join_room_by_id :=
  join_room_by_id (oid := string) Demo.oid_str upper.
Definition create_room := create_room (oid := string) Demo.oid_str.

End DemoRest.

(** ** Properties of the handlers *)

(** Unfolds the monad and the primitives down to results. *)
Ltac unfold_m :=
  unfold mbind, M_bind, mret, M_ret, bind, ret, raise, get, modify, perform,
    try_except_InvalidId, try_except, emit, emit_to, db_call.

(** *** Trimming *)

Lemma lstrip_all_space (c : string) :
  Py.all_space c = true → Py.lstrip c = "".
Proof.
  induction c as [|a c IH]; simpl; [done|].
  intros [Ha Hc]%andb_true_iff. rewrite Ha. by apply IH.
Qed.

(** A string made of whitespace only (the empty string included) is empty
    after [strip]. *)
Lemma strip_all_space (c : string) :
  Py.all_space c = true → Py.strip c = "".
Proof.
  intros Hc. unfold Py.strip, Py.rstrip. by rewrite (lstrip_all_space c Hc).
Qed.

(** Closes a goal on the concrete deployment by evaluation. *)
Ltac by_evaluation := vm_compute; first [reflexivity | discriminate | done].

Section Properties.

Context {oid : Type} `{EqDecision oid}.
Variable ObjectId : string → option oid.
Variable oid_str : oid → string.
Variable jwt_decode : string → jwt_outcome.

Local Abbreviation on_event := (dispatch ObjectId oid_str jwt_decode).
Local Abbreviation guard := (socketio_token_required ObjectId).
Local Abbreviation bound := (bound_user ObjectId).

Implicit Types (E : @env oid) (s : @state oid) (sid : string) (data : payload).

Lemma result_eta {A} (r : @result oid A) :
  mkResult (res r) (final r) (effects r) = r.
Proof. by destruct r. Qed.

(** *** The decorator *)

Lemma token_required_unauthenticated E sid f data s :
  session s !! sid = None →
  guard E sid f data s =
    mkResult (Ret tt) s
      [Emit (error (Literal "Authentication required")) ToSelf {[ sid ]}].
Proof.
  intros Hs. unfold socketio_token_required. unfold_m.
  simpl. by rewrite Hs.
Qed.

Lemma token_required_pass E sid f data s u :
  bound s sid = Some u →
  db_fault E UsersFindOne = None →
  guard E sid f data s = f u data s.
Proof.
  unfold bound_user, socketio_token_required,
    users_find_one, objectid.
  intros Hb Hf. unfold_m. simpl.
  destruct (session s !! sid) as [a|]; [|done].
  destruct (Py.truthy (ad_user_id a)); [|done]. simpl.
  destruct (ObjectId (ad_user_id a)) as [o|]; [|done]. simpl.
  rewrite Hf. simpl. rewrite Hb. simpl. apply result_eta.
Qed.

Lemma token_required_fault E sid f data s u msg :
  bound s sid = Some u →
  db_fault E UsersFindOne = Some msg →
  guard E sid f data s =
    mkResult (Raise (PyMongoError msg)) s [].
Proof.
  unfold bound_user, socketio_token_required,
    users_find_one, objectid.
  intros Hb Hf. unfold_m. simpl.
  destruct (session s !! sid) as [a|]; [|done].
  destruct (Py.truthy (ad_user_id a)); [|done]. simpl.
  destruct (ObjectId (ad_user_id a)) as [o|]; [|done]. simpl.
  by rewrite Hf.
Qed.

(** Whatever the state, the decorator either answers the connection with
    one error and nothing else, lets an exception of the store escape, or
    runs the handler on the bound user. *)
Lemma token_required_cases E sid f data s :
  (∃ m, guard E sid f data s =
          mkResult (Ret tt) s [Emit (error m) ToSelf {[ sid ]}])
  ∨ (∃ e, guard E sid f data s = mkResult (Raise e) s [])
  ∨ (∃ u, bound s sid = Some u
          ∧ guard E sid f data s = f u data s).
Proof.
  unfold bound_user, socketio_token_required,
    users_find_one, objectid.
  unfold_m. simpl.
  destruct (session s !! sid) as [a|]; [|by left; eexists].
  destruct (Py.truthy (ad_user_id a)); simpl; [|by left; eexists].
  destruct (ObjectId (ad_user_id a)) as [o|]; simpl; [|by left; eexists].
  destruct (db_fault E UsersFindOne) as [msg|]; simpl;
    [by right; left; eexists|].
  destruct (find _ _) as [u|]; simpl; [|by left; eexists].
  right; right. exists u. split; [done|]. apply result_eta.
Qed.

(** *** Events before authentication *)

(** The guard on a connection whose session holds no [auth_data]:
    join_room, leave_room, send_message, typing and stop_typing get the
    error "Authentication required", addressed to that connection alone;
    the state is left as it was and nothing else is emitted. *)
Lemma unauthenticated_event_rejected E sid g data s :
  session s !! sid = None →
  on_event E sid (guarded_inbound g data) s =
    mkResult (Ret tt) s
      [Emit (error (Literal "Authentication required")) ToSelf {[ sid ]}].
Proof.
  intros Hs. destruct g; by apply token_required_unauthenticated.
Qed.

(** *** Typing indicators *)

Lemma handle_typing_no_room_id sid u data s :
  Py.truthy_opt (data !! "room_id") = false →
  handle_typing oid_str sid u data s = mkResult (Ret tt) s []
  ∧ handle_stop_typing oid_str sid u data s = mkResult (Ret tt) s [].
Proof.
  intros Hr. unfold handle_typing, handle_stop_typing. by rewrite Hr.
Qed.

(** C10. On an authenticated connection a typing or stop_typing event whose
    payload has no room_id is dropped: nothing is emitted (no broadcast and
    no error to the sender) and the state is unchanged. *)
Theorem typing_without_room_id_dropped E sid data s u :
  bound s sid = Some u →
  data !! "room_id" = None →
  (final (on_event E sid (Typing data) s) = s
   ∧ effects (on_event E sid (Typing data) s) = [])
  ∧ (final (on_event E sid (StopTyping data) s) = s
     ∧ effects (on_event E sid (StopTyping data) s) = []).
Proof.
  intros Hb Hr. unfold dispatch.
  destruct (db_fault E UsersFindOne) as [msg|] eqn:Hf.
  - by rewrite !(token_required_fault _ _ _ _ _ _ _ Hb Hf).
  - rewrite !(token_required_pass _ _ _ _ _ _ Hb Hf).
    destruct (handle_typing_no_room_id sid u data s) as [-> ->]; [|done].
    by rewrite Hr.
Qed.

(** *** Leaving a room *)




(** *** Sending a message *)

Lemma handle_send_message_blank E sid u data s :
  blank_content data = true →
  handle_send_message ObjectId oid_str E sid u data s =
    mkResult (Ret tt) s
      [Emit (error (Literal "Room ID and content are required"))
         ToSelf {[ sid ]}].
Proof.
  intros Hb. unfold handle_send_message. unfold_m.
  assert (Py.strip (default "" (data !! "content")) = "") as ->.
  { unfold blank_content in Hb.
    destruct (data !! "content") as [c|]; simpl; [|done].
    by apply strip_all_space. }
  simpl. by rewrite orb_true_r.
Qed.

(** Every run of the handler has one of two shapes: one error to the
    sender and no change, or the insertion of the message followed by its
    broadcast to the room. *)
Lemma handle_send_message_shapes E sid u data s :
  (∃ m, handle_send_message ObjectId oid_str E sid u data s =
          mkResult (Ret tt) s [Emit (error m) ToSelf {[ sid ]}])
  ∨ (∃ room_id o room,
       data !! "room_id" = Some room_id
       ∧ ObjectId room_id = Some o
       ∧ find (λ r, bool_decide (r_id r = o)) (rooms_collection s) = Some room
       ∧ db_fault E MessagesInsertOne = None
       ∧ let doc := message_of E o u
                      (Py.strip (default "" (data !! "content"))) in
         handle_send_message ObjectId oid_str E sid u data s =
           mkResult (Ret tt) (set_messages (λ l, l ++ [doc]) s)
             [MessageInserted doc; broadcast_of oid_str doc u room_id s]).
Proof.
  unfold handle_send_message, rooms_find_one, messages_insert_one, objectid.
  unfold_m.
  destruct (data !! "room_id") as [room_id|] eqn:Hr; simpl;
    [|by left; eexists].
  destruct (Py.truthy room_id); simpl; [|by left; eexists].
  destruct (Py.truthy (Py.strip _)); simpl; [|by left; eexists].
  destruct (ObjectId room_id) as [o|] eqn:Ho; simpl; [|by left; eexists].
  destruct (db_fault E RoomsFindOne) as [msg|]; simpl; [by left; eexists|].
  destruct (find _ (rooms_collection s)) as [room|] eqn:Hfind; simpl;
    [|by left; eexists].
  destruct (db_fault E MessagesInsertOne) as [msg|] eqn:Hi; simpl;
    [by left; eexists|].
  right. by exists room_id, o, room.
Qed.

Lemma handle_send_message_ok E sid u data s room_id o room :
  data !! "room_id" = Some room_id →
  Py.truthy room_id = true →
  Py.strip (default "" (data !! "content")) ≠ "" →
  ObjectId room_id = Some o →
  db_fault E RoomsFindOne = None →
  find (λ r, bool_decide (r_id r = o)) (rooms_collection s) = Some room →
  db_fault E MessagesInsertOne = None →
  let doc := message_of E o u (Py.strip (default "" (data !! "content"))) in
  handle_send_message ObjectId oid_str E sid u data s =
    mkResult (Ret tt) (set_messages (λ l, l ++ [doc]) s)
      [MessageInserted doc; broadcast_of oid_str doc u room_id s].
Proof.
  intros Hr Ht Hc Ho Hf Hfind Hi.
  unfold handle_send_message, rooms_find_one, messages_insert_one, objectid.
  unfold_m. rewrite Hr. simpl. rewrite Ht. simpl.
  destruct (Py.strip _) as [|a c] eqn:Hs; [done|]. simpl.
  rewrite Ho. simpl. rewrite Hf. simpl. rewrite Hfind. simpl.
  by rewrite Hi.
Qed.

Lemma handle_send_message_insert_fails E sid u data s room_id o room msg :
  data !! "room_id" = Some room_id →
  Py.truthy room_id = true →
  Py.strip (default "" (data !! "content")) ≠ "" →
  ObjectId room_id = Some o →
  db_fault E RoomsFindOne = None →
  find (λ r, bool_decide (r_id r = o)) (rooms_collection s) = Some room →
  db_fault E MessagesInsertOne = Some msg →
  handle_send_message ObjectId oid_str E sid u data s =
    mkResult (Ret tt) s
      [Emit (error (StrOf (PyMongoError msg))) ToSelf {[ sid ]}].
Proof.
  intros Hr Ht Hc Ho Hf Hfind Hi.
  unfold handle_send_message, rooms_find_one, messages_insert_one, objectid.
  unfold_m. rewrite Hr. simpl. rewrite Ht. simpl.
  destruct (Py.strip _) as [|a c] eqn:Hs; [done|]. simpl.
  rewrite Ho. simpl. rewrite Hf. simpl. rewrite Hfind. simpl.
  by rewrite Hi.
Qed.

(** The registered [send_message] handler, decorator included. *)
Lemma on_send_message_shapes E sid data s :
  let r := on_event E sid (SendMessage data) s in
  (∃ m, r = mkResult (Ret tt) s [Emit (error m) ToSelf {[ sid ]}])
  ∨ (∃ e, r = mkResult (Raise e) s [])
  ∨ (∃ u room_id o room,
       bound s sid = Some u
       ∧ data !! "room_id" = Some room_id
       ∧ ObjectId room_id = Some o
       ∧ find (λ r, bool_decide (r_id r = o)) (rooms_collection s) = Some room
       ∧ db_fault E MessagesInsertOne = None
       ∧ let doc := message_of E o u
                      (Py.strip (default "" (data !! "content"))) in
         r = mkResult (Ret tt) (set_messages (λ l, l ++ [doc]) s)
               [MessageInserted doc; broadcast_of oid_str doc u room_id s]).
Proof.
  unfold dispatch.
  destruct (token_required_cases E sid
              (handle_send_message ObjectId oid_str E sid) data s)
    as [[m ->]|[[e ->]|[u [Hb ->]]]].
  - left. by exists m.
  - right; left. by exists e.
  - destruct (handle_send_message_shapes E sid u data s)
      as [[m ->]|(room_id & o & room & Hr & Ho & Hfind & Hi & ->)].
    + left. by exists m.
    + right; right. by exists u, room_id, o, room.
Qed.

(** C7. A send_message whose content is absent, empty or whitespace-only
    persists nothing and broadcasts nothing: the state is unchanged and
    whatever is emitted is an error addressed to the sender alone; on an
    authenticated connection the sender gets exactly the validation error
    "Room ID and content are required". *)
Theorem send_message_blank_content_rejected E sid data s :
  blank_content data = true →
  (final (on_event E sid (SendMessage data) s) = s
   ∧ Forall (is_error_to_self sid)
            (effects (on_event E sid (SendMessage data) s)))
  ∧ ∀ u,
      bound s sid = Some u →
      db_fault E UsersFindOne = None →
      on_event E sid (SendMessage data) s =
        mkResult (Ret tt) s
          [Emit (error (Literal "Room ID and content are required"))
             ToSelf {[ sid ]}].
Proof.
  intros Hblank. split.
  - unfold dispatch.
    destruct (token_required_cases E sid
                (handle_send_message ObjectId oid_str E sid) data s)
      as [[m ->]|[[e ->]|[u [Hb ->]]]]; simpl.
    + split; [done|]. repeat constructor. by exists m.
    + by split.
    + rewrite (handle_send_message_blank E sid u data s Hblank). simpl.
      split; [done|]. repeat constructor. by eexists.
  - intros u Hb Hf. unfold dispatch.
    rewrite (token_required_pass _ _ _ _ _ _ Hb Hf).
    by apply handle_send_message_blank.
Qed.

(** C6. In every run of send_message, a new_message broadcast comes after
    the insertion of that very message into the messages collection, which
    holds it at the end; when [insert_one] raises, the state is unchanged,
    nothing but errors to the sender is emitted (so no new_message), and a
    send that got as far as the insertion reports exactly the exception
    to the sender. *)
Theorem new_message_only_after_persistence E sid data s :
  (∀ i e,
     effects (on_event E sid (SendMessage data) s) !! i = Some e →
     is_new_message e = true →
     ∃ j doc u room_id,
       (j < i)%nat
       ∧ effects (on_event E sid (SendMessage data) s) !! j
           = Some (MessageInserted doc)
       ∧ doc ∈ messages_collection
                 (final (on_event E sid (SendMessage data) s))
       ∧ e = broadcast_of oid_str doc u room_id s)
  ∧ ∀ msg,
      db_fault E MessagesInsertOne = Some msg →
      final (on_event E sid (SendMessage data) s) = s
      ∧ Forall (is_error_to_self sid)
               (effects (on_event E sid (SendMessage data) s))
      ∧ ∀ u room_id o room,
          bound s sid = Some u →
          db_fault E UsersFindOne = None →
          data !! "room_id" = Some room_id →
          Py.truthy room_id = true →
          Py.strip (default "" (data !! "content")) ≠ "" →
          ObjectId room_id = Some o →
          db_fault E RoomsFindOne = None →
          find (λ r, bool_decide (r_id r = o)) (rooms_collection s)
            = Some room →
          on_event E sid (SendMessage data) s =
            mkResult (Ret tt) s
              [Emit (error (StrOf (PyMongoError msg))) ToSelf {[ sid ]}].
Proof.
  split.
  - intros i e Hi He.
    destruct (on_send_message_shapes E sid data s)
      as [[m Hr]|[[x Hr]|(u & room_id & o & room & _ & _ & _ & _ & _ & Hr)]];
      rewrite Hr in Hi |- *; simpl in *.
    + destruct i as [|[|i]]; cbn in Hi; simplify_eq; cbn in He; done.
    + destruct i; cbn in Hi; done.
    + destruct i as [|[|[|i]]]; cbn in Hi; simplify_eq; cbn in He;
        try done.
      eexists 0%nat, _, u, room_id.
      split; [lia|]. split; [done|]. split; [|done].
      apply elem_of_app. right. by apply list_elem_of_singleton.
  - intros msg Hfault.
    destruct (on_send_message_shapes E sid data s)
      as [[m Hr]|[[x Hr]|(u & room_id & o & room & _ & _ & _ & _ & Hi & _)]];
      [| |congruence].
    + rewrite Hr. simpl. split; [done|]. split.
      * repeat constructor. by exists m.
      * intros u room_id o room Hb Hf Hrid Ht Hc Ho Hrf Hfind.
        rewrite <- Hr. unfold dispatch.
        rewrite (token_required_pass _ _ _ _ _ _ Hb Hf).
        by eapply handle_send_message_insert_fails.
    + rewrite Hr. simpl. split; [done|]. split; [done|].
      intros u room_id o room Hb Hf Hrid Ht Hc Ho Hrf Hfind.
      rewrite <- Hr. unfold dispatch.
      rewrite (token_required_pass _ _ _ _ _ _ Hb Hf).
      by eapply handle_send_message_insert_fails.
Qed.

(** C5 (as amended). In a public room send_message asks for neither a live
    subscription nor a persisted membership: for every authenticated
    connection, an identifier that resolves to a stored public room and a
    content that is not empty after trimming, the message is inserted and
    then broadcast to the subscribers of the room. *)
Theorem send_message_public_room_open E sid data s u room_id o room :
  bound s sid = Some u →
  db_fault E UsersFindOne = None →
  data !! "room_id" = Some room_id →
  Py.truthy room_id = true →
  Py.strip (default "" (data !! "content")) ≠ "" →
  ObjectId room_id = Some o →
  db_fault E RoomsFindOne = None →
  find (λ r, bool_decide (r_id r = o)) (rooms_collection s) = Some room →
  r_type room = public →
  db_fault E MessagesInsertOne = None →
  on_event E sid (SendMessage data) s =
    mkResult (Ret tt)
      (set_messages
         (λ l, l ++ [message_of E o u
                       (Py.strip (default "" (data !! "content")))]) s)
      [ MessageInserted
          (message_of E o u (Py.strip (default "" (data !! "content"))));
        broadcast_of oid_str
          (message_of E o u (Py.strip (default "" (data !! "content"))))
          u room_id s ].
Proof.
  intros Hb Hf Hr Ht Hc Ho Hrf Hfind _ Hi. unfold dispatch.
  rewrite (token_required_pass _ _ _ _ _ _ Hb Hf).
  by eapply handle_send_message_ok.
Qed.

(** *** Authentication *)

(** A token that verifies to the identifier of a stored user is accepted,
    whatever the session and [active_users] held for the connection. *)
Lemma handle_authenticate_ok E sid data s token user_id o user :
  data !! "token" = Some token →
  Py.truthy token = true →
  jwt_decode token = Decoded user_id →
  Py.truthy user_id = true →
  ObjectId user_id = Some o →
  db_fault E UsersFindOne = None →
  find (λ u, bool_decide (u_id u = o)) (users_collection s) = Some user →
  db_fault E UsersUpdateOne = None →
  on_event E sid (Authenticate data) s =
    mkResult (Ret tt)
      (mkState
         (update_first (λ u, bool_decide (u_id u = u_id user))
            (with_status true (utcnow E)) (users_collection s))
         (rooms_collection s) (messages_collection s)
         (<[ sid := {| ud_user_id := user_id;
                       ud_username := u_username user;
                       ud_display_name := u_display_name user |} ]>
            (active_users s))
         (<[ sid := {| ad_user_id := user_id;
                       ad_username := u_username user |} ]> (session s))
         (connections s) (sio_rooms s))
      [ UserStatusSet (u_id user) true (utcnow E);
        Emit (authenticated (Literal "Authentication successful")
                (oid_str (u_id user)) (u_username user)
                (u_display_name user))
             ToSelf {[ sid ]};
        Emit (user_online (oid_str (u_id user)) (u_username user)
                (u_display_name user))
             ToAll (connections s) ].
Proof.
  intros Hd Ht Hj Hu Ho Hf Hfind Hup.
  unfold dispatch, handle_authenticate, verify_token, users_find_one,
    users_set_status, objectid.
  unfold_m. rewrite Hd. simpl. rewrite Ht. simpl. rewrite Hj. simpl.
  rewrite Hu. simpl. rewrite Ho. simpl. rewrite Hf. simpl.
  rewrite Hfind. simpl. by rewrite Hup.
Qed.

(** C3 (as amended). authenticate has no guard against a connection that is
    already bound: every authenticate whose token verifies to a stored user
    succeeds, whatever identity the connection held before, and the session
    and [active_users] entries of the connection are replaced by the new
    identity; no auth_error is emitted. *)
Theorem authenticate_rebinds E sid data s token user_id o user :
  data !! "token" = Some token →
  Py.truthy token = true →
  jwt_decode token = Decoded user_id →
  Py.truthy user_id = true →
  ObjectId user_id = Some o →
  db_fault E UsersFindOne = None →
  find (λ u, bool_decide (u_id u = o)) (users_collection s) = Some user →
  db_fault E UsersUpdateOne = None →
  res (on_event E sid (Authenticate data) s) = Ret tt
  ∧ session (final (on_event E sid (Authenticate data) s)) !! sid
      = Some {| ad_user_id := user_id; ad_username := u_username user |}
  ∧ active_users (final (on_event E sid (Authenticate data) s)) !! sid
      = Some {| ud_user_id := user_id; ud_username := u_username user;
                ud_display_name := u_display_name user |}
  ∧ Emit (authenticated (Literal "Authentication successful")
            (oid_str (u_id user)) (u_username user) (u_display_name user))
         ToSelf {[ sid ]}
      ∈ effects (on_event E sid (Authenticate data) s)
  ∧ ∀ m to rc,
      Emit (auth_error m) to rc
        ∉ effects (on_event E sid (Authenticate data) s).
Proof.
  intros Hd Ht Hj Hu Ho Hf Hfind Hup.
  rewrite (handle_authenticate_ok _ _ _ _ _ _ _ _ Hd Ht Hj Hu Ho Hf Hfind Hup).
  simpl. split; [done|].
  split; [by rewrite lookup_insert_eq|].
  split; [by rewrite lookup_insert_eq|].
  split.
  - apply list_elem_of_further, list_elem_of_here.
  - intros m to rc Hin.
    repeat (apply elem_of_cons in Hin as [Hin|Hin]; [done|]).
    by apply elem_of_nil in Hin.
Qed.

(** *** Disconnection *)

Lemma handle_disconnect_bound E sid s ud o :
  active_users s !! sid = Some ud →
  ObjectId (ud_user_id ud) = Some o →
  db_fault E UsersUpdateOne = None →
  handle_disconnect ObjectId E sid s =
    mkResult (Ret tt)
      (mkState
         (update_first (λ u, bool_decide (u_id u = o))
            (with_status false (utcnow E)) (users_collection s))
         (rooms_collection s) (messages_collection s)
         (delete sid (active_users s)) (session s)
         (connections s) (sio_rooms s))
      [ UserStatusSet o false (utcnow E);
        Emit (user_offline (ud_user_id ud) (ud_username ud))
             ToAll (connections s) ].
Proof.
  intros Ha Ho Hup.
  unfold handle_disconnect, users_set_status, objectid. unfold_m. simpl.
  rewrite Ha. simpl. rewrite Ho. simpl. by rewrite Hup.
Qed.

Lemma handle_disconnect_unbound E sid s :
  active_users s !! sid = None →
  handle_disconnect ObjectId E sid s = mkResult (Ret tt) s [].
Proof.
  intros Ha. unfold handle_disconnect. unfold_m. simpl. by rewrite Ha.
Qed.

(** The effects of the disconnect handler, in every case. *)
Lemma handle_disconnect_effects E sid s :
  effects (handle_disconnect ObjectId E sid s) = []
  ∨ ∃ ud o,
      active_users s !! sid = Some ud
      ∧ effects (handle_disconnect ObjectId E sid s) =
          [ UserStatusSet o false (utcnow E);
            Emit (user_offline (ud_user_id ud) (ud_username ud))
                 ToAll (connections s) ].
Proof.
  unfold handle_disconnect, users_set_status, objectid. unfold_m. simpl.
  destruct (active_users s !! sid) as [ud|] eqn:Ha; simpl; [|by left].
  destruct (ObjectId (ud_user_id ud)) as [o|]; simpl; [|by left].
  destruct (db_fault E UsersUpdateOne); simpl; [by left|].
  right. by exists ud, o.
Qed.

Lemma on_disconnect_effects E sid s :
  effects (on_event E sid Disconnect s)
    = effects (handle_disconnect ObjectId E sid s).
Proof.
  unfold dispatch, sio_disconnect. unfold_m.
  destruct (res (handle_disconnect ObjectId E sid s)); simpl; [|done].
  by rewrite app_nil_r.
Qed.

(** C2 (as amended). Presence is kept per connection, with no count per
    identity: every successful authenticate broadcasts user_online to all
    connections, and the disconnect of a connection recorded in
    [active_users] broadcasts user_offline to all connections exactly once,
    in both cases whatever other connections the same identity holds; the
    disconnect of a connection that is not in [active_users] emits
    nothing. *)
Theorem presence_is_per_connection E sid s :
  (∀ data token user_id o user,
     data !! "token" = Some token →
     Py.truthy token = true →
     jwt_decode token = Decoded user_id →
     Py.truthy user_id = true →
     ObjectId user_id = Some o →
     db_fault E UsersFindOne = None →
     find (λ u, bool_decide (u_id u = o)) (users_collection s) = Some user →
     db_fault E UsersUpdateOne = None →
     filter (λ e, is_user_online e = true)
            (effects (on_event E sid (Authenticate data) s))
       = [ Emit (user_online (oid_str (u_id user)) (u_username user)
                   (u_display_name user))
                ToAll (connections s) ])
  ∧ (∀ ud o,
       active_users s !! sid = Some ud →
       ObjectId (ud_user_id ud) = Some o →
       db_fault E UsersUpdateOne = None →
       filter (λ e, is_user_offline e = true)
              (effects (on_event E sid Disconnect s))
         = [ Emit (user_offline (ud_user_id ud) (ud_username ud))
                  ToAll (connections s) ])
  ∧ (active_users s !! sid = None →
     effects (on_event E sid Disconnect s) = []).
Proof.
  split; [|split].
  - intros data token user_id o user Hd Ht Hj Hu Ho Hf Hfind Hup.
    by rewrite (handle_authenticate_ok _ _ _ _ _ _ _ _
                  Hd Ht Hj Hu Ho Hf Hfind Hup).
  - intros ud o Ha Ho Hup. rewrite on_disconnect_effects.
    by rewrite (handle_disconnect_bound _ _ _ _ _ Ha Ho Hup).
  - intros Ha. rewrite on_disconnect_effects.
    by rewrite (handle_disconnect_unbound _ _ _ Ha).
Qed.

(** C4 (as amended). The disconnect path never emits user_left_room: all it
    emits, for a connection recorded in [active_users], is the user_offline
    broadcast to all connections; the connection is then dropped from the
    subscribers of every room without any notification to them. *)
Theorem disconnect_emits_no_user_left_room E sid s :
  Forall (λ e, is_user_left_room e = false)
         (effects (on_event E sid Disconnect s))
  ∧ ∀ ud o,
      active_users s !! sid = Some ud →
      ObjectId (ud_user_id ud) = Some o →
      db_fault E UsersUpdateOne = None →
      filter (λ e, is_emit e = true) (effects (on_event E sid Disconnect s))
        = [ Emit (user_offline (ud_user_id ud) (ud_username ud))
                 ToAll (connections s) ]
      ∧ sio_rooms (final (on_event E sid Disconnect s))
          = (λ members, members ∖ {[ sid ]}) <$> sio_rooms s.
Proof.
  split.
  - rewrite on_disconnect_effects.
    destruct (handle_disconnect_effects E sid s) as [->|(ud & o & _ & ->)];
      by repeat constructor.
  - intros ud o Ha Ho Hup. split.
    + rewrite on_disconnect_effects.
      by rewrite (handle_disconnect_bound _ _ _ _ _ Ha Ho Hup).
    + unfold dispatch, sio_disconnect. unfold_m.
      by rewrite (handle_disconnect_bound _ _ _ _ _ Ha Ho Hup).
Qed.

(** *** Joining a room *)

(** The handler never reads the type of the room: a stored room of either
    type admits an identity that is not among its members, and records it
    as a member. *)
Lemma handle_join_room_adds_nonmember E sid u data s room_id o room :
  data !! "room_id" = Some room_id →
  Py.truthy room_id = true →
  ObjectId room_id = Some o →
  db_fault E RoomsFindOne = None →
  find (λ r, bool_decide (r_id r = o)) (rooms_collection s) = Some room →
  is_member (u_id u) room = false →
  db_fault E RoomsUpdateOne = None →
  handle_join_room ObjectId oid_str E sid u data s =
    mkResult (Ret tt)
      (mkState (users_collection s)
         (update_first (λ r, bool_decide (r_id r = o))
            (with_member {| mb_user_id := u_id u; mb_joined_at := utcnow E;
                            mb_role := "member" |})
            (rooms_collection s))
         (messages_collection s) (active_users s) (session s)
         (connections s)
         (<[ room_id := {[ sid ]} ∪ subscribers_of s room_id ]>
            (sio_rooms s)))
      [ MemberPushed o {| mb_user_id := u_id u; mb_joined_at := utcnow E;
                          mb_role := "member" |};
        Emit (room_joined room_id (r_name room)) ToSelf {[ sid ]};
        Emit (user_joined_room (oid_str (u_id u)) (u_username u)
                (u_display_name u) room_id)
             (ToRoomOthers room_id)
             (subscribers_of s room_id ∖ {[ sid ]}) ].
Proof.
  intros Hr Ht Ho Hf Hfind Hm Hup.
  unfold handle_join_room, rooms_find_one, rooms_push_member, join_room,
    objectid, subscribers_of.
  unfold_m. rewrite Hr. simpl. rewrite Ht. simpl. rewrite Ho. simpl.
  rewrite Hf. simpl. rewrite Hfind. simpl.
  unfold is_member in Hm. rewrite Hm. simpl. rewrite Hup. simpl.
  rewrite lookup_total_insert_eq.
  assert (({[sid]} ∪ sio_rooms s !!! room_id) ∖ {[sid]}
          = sio_rooms s !!! room_id ∖ {[sid]}) as ->; [|done].
  apply set_eq. intros x.
  rewrite !elem_of_difference, elem_of_union. tauto.
Qed.

End Properties.

(** ** The handlers on the concrete deployment *)

(** *** Events before authentication *)

(** C8, the code at the failing input: the connection [s2] is open and not
    authenticated, and its send_message is rejected.  bob's authenticate
    then arrives on [s2] while the update of the user's status raises: it
    is answered auth_error alone (no authenticated, no user_online, no
    entry in [active_users]).  The session of the connection was written
    before the update, so the same send_message is now accepted from the
    connection that was refused: the message is stored and broadcast to the
    subscriber [s1]. *)
Theorem failed_authenticate_passes_guard :
  session Demo2.s_guest_connected !! "s2" = None
  ∧ Demo.dispatch (Demo.E 6 Demo.hi_id) "s2"
      (SendMessage (Demo.text Demo.general_id "hi")) Demo2.s_guest_connected
    = mkResult (Ret tt) Demo2.s_guest_connected
        [Emit (error (Literal "Authentication required")) ToSelf {[ "s2" ]}]
  ∧ db_fault (Demo2.E_update_down 5) UsersUpdateOne
    = Some "connection refused"
  ∧ res Demo2.refused_authenticate = Ret tt
  ∧ effects Demo2.refused_authenticate
    = [Emit (auth_error (StrOf (PyMongoError "connection refused")))
         ToSelf {[ "s2" ]}]
  ∧ active_users (final Demo2.refused_authenticate) !! "s2" = None
  ∧ persisted (final Demo2.refused_authenticate)
    = persisted Demo2.s_guest_connected
  ∧ effects (Demo.dispatch (Demo.E 6 Demo.hi_id) "s2"
               (SendMessage (Demo.text Demo.general_id "hi"))
               (final Demo2.refused_authenticate))
    = [ MessageInserted Demo2.hi_from_bob;
        Emit (new_message Demo.hi_id Demo.general_id "hi" Demo.bob_id
                "bob" "Bob" 6)
             (ToRoom Demo.general_id) {[ "s1" ]} ]
  ∧ messages_collection
      (final (Demo.dispatch (Demo.E 6 Demo.hi_id) "s2"
                (SendMessage (Demo.text Demo.general_id "hi"))
                (final Demo2.refused_authenticate)))
    = [Demo2.hi_from_bob].
Proof. repeat split; by_evaluation. Qed.

(** *** Typing indicators *)

Lemma typing_without_room_id_dropped_witness :
  bound_user Demo.ObjectId Demo.s_two_users "s1" = Some Demo.alice_online
  ∧ (∅ : payload) !! "room_id" = None
  ∧ (final (Demo.dispatch (Demo.E 9 "") "s1" (Typing ∅) Demo.s_two_users)
       = Demo.s_two_users
     ∧ effects (Demo.dispatch (Demo.E 9 "") "s1" (Typing ∅) Demo.s_two_users)
       = [])
  ∧ (final (Demo.dispatch (Demo.E 9 "") "s1" (StopTyping ∅) Demo.s_two_users)
       = Demo.s_two_users
     ∧ effects (Demo.dispatch (Demo.E 9 "") "s1" (StopTyping ∅)
                  Demo.s_two_users)
       = []).
Proof.
  split; [by_evaluation|]. split; [by_evaluation|].
  apply (typing_without_room_id_dropped Demo.ObjectId Demo.oid_str
           Demo.jwt_decode (Demo.E 9 "") "s1" ∅ Demo.s_two_users
           Demo.alice_online); by_evaluation.
Defined.

(** *** Leaving a room *)


(** *** Sending a message *)

Lemma send_message_blank_content_rejected_witness :
  blank_content (Demo.text Demo.general_id "   ") = true
  ∧ bound_user Demo.ObjectId Demo.s_alice_in_general "s1"
      = Some Demo.alice_online
  ∧ Demo.dispatch (Demo.E 7 Demo.hi_id) "s1"
      (SendMessage (Demo.text Demo.general_id "   ")) Demo.s_alice_in_general
    = mkResult (Ret tt) Demo.s_alice_in_general
        [Emit (error (Literal "Room ID and content are required"))
           ToSelf {[ "s1" ]}].
Proof.
  split; [by_evaluation|]. split; [by_evaluation|].
  destruct (send_message_blank_content_rejected Demo.ObjectId Demo.oid_str
              Demo.jwt_decode (Demo.E 7 Demo.hi_id) "s1"
              (Demo.text Demo.general_id "   ") Demo.s_alice_in_general)
    as [_ Hexact]; [by_evaluation|].
  apply (Hexact Demo.alice_online); by_evaluation.
Defined.

Lemma new_message_only_after_persistence_witness :
  db_fault (Demo.E_insert_down 7 Demo.hi_id) MessagesInsertOne
    = Some "connection refused"
  ∧ Demo.dispatch (Demo.E_insert_down 7 Demo.hi_id) "s1"
      (SendMessage (Demo.text Demo.general_id "hi")) Demo.s_alice_in_general
    = mkResult (Ret tt) Demo.s_alice_in_general
        [Emit (error (StrOf (PyMongoError "connection refused")))
           ToSelf {[ "s1" ]}]
  ∧ ∃ j doc u room_id,
      (j < 1)%nat
      ∧ effects (Demo.dispatch (Demo.E 7 Demo.hi_id) "s1"
                   (SendMessage (Demo.text Demo.general_id "hi"))
                   Demo.s_alice_in_general) !! j
          = Some (MessageInserted doc)
      ∧ doc ∈ messages_collection
                (final (Demo.dispatch (Demo.E 7 Demo.hi_id) "s1"
                          (SendMessage (Demo.text Demo.general_id "hi"))
                          Demo.s_alice_in_general))
      ∧ Emit (new_message Demo.hi_id Demo.general_id "hi"
                Demo.alice_id "alice" "Alice" 7)
             (ToRoom Demo.general_id) {[ "s1" ]}
          = broadcast_of Demo.oid_str doc u room_id Demo.s_alice_in_general.
Proof.
  split; [by_evaluation|]. split.
  - destruct (new_message_only_after_persistence Demo.ObjectId Demo.oid_str
                Demo.jwt_decode (Demo.E_insert_down 7 Demo.hi_id) "s1"
                (Demo.text Demo.general_id "hi") Demo.s_alice_in_general)
      as [_ Hfail].
    destruct (Hfail "connection refused") as (_ & _ & Hexact);
      [by_evaluation|].
    apply (Hexact Demo.alice_online Demo.general_id Demo.general_id
             Demo.general); by_evaluation.
  - destruct (new_message_only_after_persistence Demo.ObjectId Demo.oid_str
                Demo.jwt_decode (Demo.E 7 Demo.hi_id) "s1"
                (Demo.text Demo.general_id "hi") Demo.s_alice_in_general)
      as [Horder _].
    apply (Horder 1%nat); by_evaluation.
Defined.

(** C5, the claim as stated fails: bob, on connection [s2], is neither
    subscribed to the public room nor one of its persisted members, and his
    send_message is inserted and broadcast to the subscriber [s1]. *)
Lemma send_message_by_outsider_counterexample :
  ("s2" ∉ subscribers_of Demo.s_alice_in_general Demo.general_id)
  ∧ find (λ r, bool_decide (r_id r = Demo.general_id))
         (rooms_collection Demo.s_alice_in_general) = Some Demo.general
  ∧ is_member Demo.bob_id Demo.general = false
  ∧ Demo.dispatch (Demo.E 7 Demo.hi_id) "s2"
      (SendMessage (Demo.text Demo.general_id "hi")) Demo.s_alice_in_general
    = mkResult (Ret tt)
        (set_messages
           (λ _, [message_of (Demo.E 7 Demo.hi_id) Demo.general_id
                    Demo.bob_online "hi"])
           Demo.s_alice_in_general)
        [ MessageInserted
            (message_of (Demo.E 7 Demo.hi_id) Demo.general_id
               Demo.bob_online "hi");
          Emit (new_message Demo.hi_id Demo.general_id "hi"
                  Demo.bob_id "bob" "Bob" 7)
               (ToRoom Demo.general_id) {[ "s1" ]} ].
Proof.
  split; [|split; [by_evaluation|split; by_evaluation]].
  apply (bool_decide_unpack _). by_evaluation.
Qed.

Lemma send_message_public_room_open_witness :
  bound_user Demo.ObjectId Demo.s_alice_in_general "s2" = Some Demo.bob_online
  ∧ r_type Demo.general = public
  ∧ Demo.dispatch (Demo.E 7 Demo.hi_id) "s2"
      (SendMessage (Demo.text Demo.general_id "hi")) Demo.s_alice_in_general
    = mkResult (Ret tt)
        (set_messages
           (λ l, l ++ [message_of (Demo.E 7 Demo.hi_id) Demo.general_id
                         Demo.bob_online "hi"])
           Demo.s_alice_in_general)
        [ MessageInserted
            (message_of (Demo.E 7 Demo.hi_id) Demo.general_id
               Demo.bob_online "hi");
          broadcast_of Demo.oid_str
            (message_of (Demo.E 7 Demo.hi_id) Demo.general_id
               Demo.bob_online "hi")
            Demo.bob_online Demo.general_id Demo.s_alice_in_general ].
Proof.
  split; [by_evaluation|]. split; [by_evaluation|].
  apply (send_message_public_room_open Demo.ObjectId Demo.oid_str
           Demo.jwt_decode (Demo.E 7 Demo.hi_id) "s2"
           (Demo.text Demo.general_id "hi") Demo.s_alice_in_general
           Demo.bob_online Demo.general_id Demo.general_id Demo.general);
    by_evaluation.
Defined.

(** *** Joining a private room *)

(** C1, the code at the failing input: bob is not a member of the private
    room (the REST route [get_room_messages] denies him its messages) and
    sends join_room with its identifier; the handler pushes him into the
    persisted members, subscribes him, and emits room_joined and
    user_joined_room; afterwards [get_room_messages] lets him in. *)
Theorem join_private_room_without_code_admits :
  r_type Demo.secret = private
  ∧ find (λ r, bool_decide (r_id r = Demo.secret_id))
         (rooms_collection Demo.s_alice_in_secret) = Some Demo.secret
  ∧ is_member Demo.bob_id Demo.secret = false
  ∧ get_room_messages_denied Demo.bob_online Demo.secret = true
  ∧ effects (Demo.dispatch (Demo.E 7 "") "s2"
               (JoinRoom (Demo.room Demo.secret_id)) Demo.s_alice_in_secret)
      = [ MemberPushed Demo.secret_id (Demo.bob_member 7);
          Emit (room_joined Demo.secret_id "Secret") ToSelf {[ "s2" ]};
          Emit (user_joined_room Demo.bob_id "bob" "Bob" Demo.secret_id)
               (ToRoomOthers Demo.secret_id) {[ "s1" ]} ]
  ∧ find (λ r, bool_decide (r_id r = Demo.secret_id))
         (rooms_collection
            (final (Demo.dispatch (Demo.E 7 "") "s2"
                      (JoinRoom (Demo.room Demo.secret_id))
                      Demo.s_alice_in_secret)))
      = Some (with_member (Demo.bob_member 7) Demo.secret)
  ∧ get_room_messages_denied Demo.bob_online
      (with_member (Demo.bob_member 7) Demo.secret) = false
  ∧ subscribers_of
      (final (Demo.dispatch (Demo.E 7 "") "s2"
                (JoinRoom (Demo.room Demo.secret_id))
                Demo.s_alice_in_secret))
      Demo.secret_id
      = {[ "s1"; "s2" ]}.
Proof. repeat split; by_evaluation. Qed.

(** *** Authentication *)

(** C3, the claim as stated fails: connection [s1] is bound to alice, and a
    second authenticate on it, with bob's token, succeeds and replaces the
    bound identity by bob. *)
Lemma second_authenticate_succeeds_counterexample :
  session Demo.s_two_users !! "s1"
    = Some {| ad_user_id := Demo.alice_id; ad_username := "alice" |}
  ∧ effects (Demo.dispatch (Demo.E 9 "") "s1"
               (Authenticate (Demo.token "token-of-bob")) Demo.s_two_users)
      = [ UserStatusSet Demo.bob_id true 9;
          Emit (authenticated (Literal "Authentication successful")
                  Demo.bob_id "bob" "Bob")
               ToSelf {[ "s1" ]};
          Emit (user_online Demo.bob_id "bob" "Bob") ToAll {[ "s1"; "s2" ]} ]
  ∧ session (final (Demo.dispatch (Demo.E 9 "") "s1"
                      (Authenticate (Demo.token "token-of-bob"))
                      Demo.s_two_users)) !! "s1"
      = Some {| ad_user_id := Demo.bob_id; ad_username := "bob" |}.
Proof. repeat split; by_evaluation. Qed.

Lemma authenticate_rebinds_witness :
  session Demo.s_two_users !! "s1"
    = Some {| ad_user_id := Demo.alice_id; ad_username := "alice" |}
  ∧ Demo.jwt_decode "token-of-bob" = Decoded Demo.bob_id
  ∧ find (λ u, bool_decide (u_id u = Demo.bob_id))
         (users_collection Demo.s_two_users) = Some Demo.bob_online
  ∧ res (Demo.dispatch (Demo.E 9 "") "s1"
           (Authenticate (Demo.token "token-of-bob")) Demo.s_two_users)
      = Ret tt
  ∧ session (final (Demo.dispatch (Demo.E 9 "") "s1"
                      (Authenticate (Demo.token "token-of-bob"))
                      Demo.s_two_users)) !! "s1"
      = Some {| ad_user_id := Demo.bob_id; ad_username := "bob" |}.
Proof.
  split; [by_evaluation|]. split; [by_evaluation|]. split; [by_evaluation|].
  destruct (authenticate_rebinds Demo.ObjectId Demo.oid_str Demo.jwt_decode
              (Demo.E 9 "") "s1" (Demo.token "token-of-bob") Demo.s_two_users
              "token-of-bob" Demo.bob_id Demo.bob_id Demo.bob_online)
    as (Hres & Hsession & _); [by_evaluation..|].
  split; [exact Hres|exact Hsession].
Defined.

(** *** Presence *)

(** C2, the claim as stated fails: alice holds the two bound connections
    [s1] and [s2]; the bind of the second one broadcast user_online again,
    and the disconnect of [s1] broadcasts user_offline although [s2] stays
    bound to alice. *)
Lemma presence_not_reference_counted_counterexample :
  connections_of Demo.s_second_tab_open Demo.alice_id = {[ "s1" ]}
  ∧ filter (λ e, is_user_online e = true)
      (effects (Demo.dispatch (Demo.E 4 "") "s2"
                  (Authenticate (Demo.token "token-of-alice"))
                  Demo.s_second_tab_open))
      = [ Emit (user_online Demo.alice_id "alice" "Alice")
               ToAll {[ "s1"; "s2" ]} ]
  ∧ connections_of Demo.s_two_tabs Demo.alice_id = {[ "s1"; "s2" ]}
  ∧ effects (Demo.dispatch (Demo.E 5 "") "s1" Disconnect Demo.s_two_tabs)
      = [ UserStatusSet Demo.alice_id false 5;
          Emit (user_offline Demo.alice_id "alice") ToAll {[ "s1"; "s2" ]} ]
  ∧ connections_of
      (final (Demo.dispatch (Demo.E 5 "") "s1" Disconnect Demo.s_two_tabs))
      Demo.alice_id
      = {[ "s2" ]}.
Proof. repeat split; by_evaluation. Qed.

Lemma presence_is_per_connection_witness :
  active_users Demo.s_two_tabs !! "s1"
    = Some {| ud_user_id := Demo.alice_id; ud_username := "alice";
              ud_display_name := "Alice" |}
  ∧ connections_of Demo.s_two_tabs Demo.alice_id = {[ "s1"; "s2" ]}
  ∧ filter (λ e, is_user_offline e = true)
      (effects (Demo.dispatch (Demo.E 5 "") "s1" Disconnect Demo.s_two_tabs))
      = [ Emit (user_offline Demo.alice_id "alice") ToAll {[ "s1"; "s2" ]} ]
  ∧ filter (λ e, is_user_online e = true)
      (effects (Demo.dispatch (Demo.E 4 "") "s2"
                  (Authenticate (Demo.token "token-of-alice"))
                  Demo.s_second_tab_open))
      = [ Emit (user_online Demo.alice_id "alice" "Alice")
               ToAll {[ "s1"; "s2" ]} ]
  ∧ effects (Demo.dispatch (Demo.E 5 "") "s9" Disconnect Demo.s_two_tabs)
      = [].
Proof.
  split; [by_evaluation|]. split; [by_evaluation|].
  split; [|split].
  - destruct (presence_is_per_connection Demo.ObjectId Demo.oid_str
                Demo.jwt_decode (Demo.E 5 "") "s1" Demo.s_two_tabs)
      as (_ & Hoff & _).
    apply (Hoff {| ud_user_id := Demo.alice_id; ud_username := "alice";
                   ud_display_name := "Alice" |} Demo.alice_id);
      by_evaluation.
  - destruct (presence_is_per_connection Demo.ObjectId Demo.oid_str
                Demo.jwt_decode (Demo.E 4 "") "s2" Demo.s_second_tab_open)
      as (Hon & _ & _).
    apply (Hon (Demo.token "token-of-alice") "token-of-alice" Demo.alice_id
             Demo.alice_id Demo.alice_online); by_evaluation.
  - destruct (presence_is_per_connection Demo.ObjectId Demo.oid_str
                Demo.jwt_decode (Demo.E 5 "") "s9" Demo.s_two_tabs)
      as (_ & _ & Hnone).
    apply Hnone. by_evaluation.
Defined.

(** *** Disconnection *)

(** C4, the claim as stated fails: [s1] and [s2] are subscribed to the
    public room; bob's connection [s2] disconnects, and the only emission is
    user_offline: the remaining subscriber [s1] gets no user_left_room,
    while [s2] is gone from the subscribers of the room. *)
Lemma disconnect_without_user_left_room_counterexample :
  subscribers_of Demo.s_both_in_general Demo.general_id = {[ "s1"; "s2" ]}
  ∧ effects (Demo.dispatch (Demo.E 7 "") "s2" Disconnect
               Demo.s_both_in_general)
      = [ UserStatusSet Demo.bob_id false 7;
          Emit (user_offline Demo.bob_id "bob") ToAll {[ "s1"; "s2" ]} ]
  ∧ subscribers_of
      (final (Demo.dispatch (Demo.E 7 "") "s2" Disconnect
                Demo.s_both_in_general))
      Demo.general_id
      = {[ "s1" ]}.
Proof. repeat split; by_evaluation. Qed.

Lemma disconnect_emits_no_user_left_room_witness :
  active_users Demo.s_both_in_general !! "s2"
    = Some {| ud_user_id := Demo.bob_id; ud_username := "bob";
              ud_display_name := "Bob" |}
  ∧ Forall (λ e, is_user_left_room e = false)
      (effects (Demo.dispatch (Demo.E 7 "") "s2" Disconnect
                  Demo.s_both_in_general))
  ∧ filter (λ e, is_emit e = true)
      (effects (Demo.dispatch (Demo.E 7 "") "s2" Disconnect
                  Demo.s_both_in_general))
      = [ Emit (user_offline Demo.bob_id "bob") ToAll {[ "s1"; "s2" ]} ].
Proof.
  split; [by_evaluation|].
  destruct (disconnect_emits_no_user_left_room Demo.ObjectId Demo.oid_str
              Demo.jwt_decode (Demo.E 7 "") "s2" Demo.s_both_in_general)
    as [Hnone Hbound].
  split; [exact Hnone|].
  destruct (Hbound {| ud_user_id := Demo.bob_id; ud_username := "bob";
                      ud_display_name := "Bob" |} Demo.bob_id)
    as [Hemit _]; [by_evaluation..|].
  unfold Demo.dispatch. rewrite Hemit. by_evaluation.
Defined.

(** ** Rules of the program logic *)

Section Rules.

Context {oid : Type} `{EqDecision oid}.
Variable ObjectId : string → option oid.
Variable oid_str : oid → string.

Implicit Types (E : @env oid) (s : @state oid) (sid : string).

Lemma after_nil {A} (r : @result oid A) : after [] r = r.
Proof. by destruct r. Qed.

Lemma wp_bind {A B} (c : @M oid A) (k : A → M B) s Q :
  wp c s (λ r, match res r with
               | Ret a => wp (k a) (final r) (λ r', Q (after (effects r) r'))
               | Raise e => Q (mkResult (Raise e) (final r) (effects r))
               end) →
  wp (c ≫= k) s Q.
Proof.
  unfold wp, mbind, M_bind, bind, after. by destruct (res (c s)).
Qed.

Lemma wp_try_except {A} (body : @M oid A) (handler : exn → M A) s Q :
  wp body s (λ r, match res r with
                  | Ret a => Q r
                  | Raise e =>
                      wp (handler e) (final r)
                         (λ r', Q (after (effects r) r'))
                  end) →
  wp (try_except body handler) s Q.
Proof.
  unfold wp, try_except, after. by destruct (res (body s)).
Qed.

Lemma wp_try_except_InvalidId {A} (body handler : @M oid A) s Q :
  wp body s (λ r, match res r with
                  | Ret a => Q r
                  | Raise (InvalidId x) =>
                      wp handler (final r) (λ r', Q (after (effects r) r'))
                  | Raise e => Q (mkResult (Raise e) (final r) (effects r))
                  end) →
  wp (try_except_InvalidId body handler) s Q.
Proof.
  unfold try_except_InvalidId. intros Hb. apply wp_try_except.
  unfold wp in *. destruct (res (body s)) as [a|[x|msg]]; [done|done|].
  unfold raise, after. simpl. by rewrite app_nil_r.
Qed.

Lemma wp_ret {A} (a : A) s (Q : @result oid A → Prop) :
  Q (mkResult (Ret a) s []) → wp (mret a) s Q.
Proof. done. Qed.

Lemma wp_raise {A} (e : exn) s (Q : @result oid A → Prop) :
  Q (mkResult (Raise e) s []) → wp (raise e) s Q.
Proof. done. Qed.

Lemma wp_get s (Q : @result oid state → Prop) :
  Q (mkResult (Ret s) s []) → wp get s Q.
Proof. done. Qed.

Lemma wp_modify f s (Q : @result oid unit → Prop) :
  Q (mkResult (Ret tt) (f s) []) → wp (modify f) s Q.
Proof. done. Qed.

Lemma wp_perform e s (Q : @result oid unit → Prop) :
  Q (mkResult (Ret tt) s [e]) → wp (perform e) s Q.
Proof. done. Qed.

Lemma wp_emit_to sid t e s (Q : @result oid unit → Prop) :
  Q (mkResult (Ret tt) s [Emit e t (deliver sid s t)]) →
  wp (emit_to sid t e) s Q.
Proof. done. Qed.

Lemma wp_emit sid e s (Q : @result oid unit → Prop) :
  Q (mkResult (Ret tt) s [Emit e ToSelf {[ sid ]}]) → wp (emit sid e) s Q.
Proof. done. Qed.

Lemma wp_objectid x s (Q : @result oid oid → Prop) :
  (∀ o, ObjectId x = Some o → Q (mkResult (Ret o) s [])) →
  (ObjectId x = None → Q (mkResult (Raise (InvalidId x)) s [])) →
  wp (objectid ObjectId x) s Q.
Proof.
  unfold wp, objectid. intros Hs Hn.
  destruct (ObjectId x) as [o|]; [by apply Hs|by apply Hn].
Qed.

Lemma wp_db_call {A} E op (c : @M oid A) s Q :
  (∀ msg, db_fault E op = Some msg →
          Q (mkResult (Raise (PyMongoError msg)) s [])) →
  (db_fault E op = None → wp c s Q) →
  wp (db_call E op c) s Q.
Proof.
  unfold wp, db_call. intros Hf Hn.
  destruct (db_fault E op) as [msg|]; [by apply Hf|by apply Hn].
Qed.

Lemma wp_users_find_one E o s (Q : @result oid (option user_doc) → Prop) :
  (∀ msg, db_fault E UsersFindOne = Some msg →
          Q (mkResult (Raise (PyMongoError msg)) s [])) →
  (db_fault E UsersFindOne = None →
   Q (mkResult (Ret (find (λ u, bool_decide (u_id u = o))
                          (users_collection s))) s [])) →
  wp (users_find_one E o) s Q.
Proof. intros Hf Hn. by apply wp_db_call. Qed.

Lemma wp_rooms_find_one E o s (Q : @result oid (option room_doc) → Prop) :
  (∀ msg, db_fault E RoomsFindOne = Some msg →
          Q (mkResult (Raise (PyMongoError msg)) s [])) →
  (db_fault E RoomsFindOne = None →
   Q (mkResult (Ret (find (λ r, bool_decide (r_id r = o))
                          (rooms_collection s))) s [])) →
  wp (rooms_find_one E o) s Q.
Proof. intros Hf Hn. by apply wp_db_call. Qed.

Lemma wp_users_set_status E o b s (Q : @result oid unit → Prop) :
  (∀ msg, db_fault E UsersUpdateOne = Some msg →
          Q (mkResult (Raise (PyMongoError msg)) s [])) →
  (db_fault E UsersUpdateOne = None →
   Q (mkResult (Ret tt)
        (set_users (update_first (λ u, bool_decide (u_id u = o))
                      (with_status b (utcnow E))) s)
        [UserStatusSet o b (utcnow E)])) →
  wp (users_set_status E o b) s Q.
Proof. intros Hf Hn. by apply wp_db_call. Qed.

Lemma wp_rooms_push_member E o m s (Q : @result oid unit → Prop) :
  (∀ msg, db_fault E RoomsUpdateOne = Some msg →
          Q (mkResult (Raise (PyMongoError msg)) s [])) →
  (db_fault E RoomsUpdateOne = None →
   Q (mkResult (Ret tt)
        (set_rooms (update_first (λ r, bool_decide (r_id r = o))
                      (with_member m)) s)
        [MemberPushed o m])) →
  wp (rooms_push_member E o m) s Q.
Proof. intros Hf Hn. by apply wp_db_call. Qed.

Lemma wp_messages_insert_one E doc s (Q : @result oid oid → Prop) :
  (∀ msg, db_fault E MessagesInsertOne = Some msg →
          Q (mkResult (Raise (PyMongoError msg)) s [])) →
  (db_fault E MessagesInsertOne = None →
   Q (mkResult (Ret (m_id doc)) (set_messages (λ l, l ++ [doc]) s)
        [MessageInserted doc])) →
  wp (messages_insert_one E doc) s Q.
Proof. intros Hf Hn. by apply wp_db_call. Qed.

End Rules.

(** ** Tactics of the program logic *)

(** One step of the program logic, chosen by the head of the program. *)
Ltac wp_step :=
  lazymatch goal with
  | |- wp (_ ≫= _) _ _ => apply wp_bind
  | |- wp (try_except_InvalidId _ _) _ _ => apply wp_try_except_InvalidId
  | |- wp (try_except _ _) _ _ => apply wp_try_except
  | |- wp (if ?b then _ else _) _ _ => destruct b eqn:?
  | |- wp (match ?x with _ => _ end) _ _ => destruct x eqn:?
  | |- wp (join_room _ _) _ _ => unfold join_room
  | |- wp (leave_room _ _) _ _ => unfold leave_room
  | |- wp (sio_connect _) _ _ => unfold sio_connect
  | |- wp (sio_disconnect _) _ _ => unfold sio_disconnect
  | |- wp (handle_connect _) _ _ => unfold handle_connect
  | |- wp (emit _ _) _ _ => apply wp_emit
  | |- wp (emit_to _ _ _) _ _ => apply wp_emit_to
  | |- wp (mret _) _ _ => apply wp_ret
  | |- wp (raise _) _ _ => apply wp_raise
  | |- wp get _ _ => apply wp_get
  | |- wp (modify _) _ _ => apply wp_modify
  | |- wp (perform _) _ _ => apply wp_perform
  | |- wp (objectid _ _) _ _ => apply wp_objectid; [intros ? ?|intros ?]
  | |- wp (users_find_one _ _) _ _ =>
      apply wp_users_find_one; [intros ? ?|intros ?]
  | |- wp (rooms_find_one _ _) _ _ =>
      apply wp_rooms_find_one; [intros ? ?|intros ?]
  | |- wp (users_set_status _ _ _) _ _ =>
      apply wp_users_set_status; [intros ? ?|intros ?]
  | |- wp (rooms_push_member _ _ _) _ _ =>
      apply wp_rooms_push_member; [intros ? ?|intros ?]
  | |- wp (messages_insert_one _ _) _ _ =>
      apply wp_messages_insert_one; [intros ? ?|intros ?]
  end; cbn [res final effects after app].

Ltac wp_run := repeat wp_step.



(** Reduces the projections of a state reached by the setters. *)
Ltac state_simpl :=
  cbn [users_collection rooms_collection messages_collection active_users
       session connections sio_rooms set_users set_rooms set_messages
       set_active_users set_session set_connections set_sio_rooms].

(** ** Invariants of the socket events *)

Section Invariants.

Context {oid : Type} `{EqDecision oid}.
Variable ObjectId : string → option oid.
Variable oid_str : oid → string.
Variable jwt_decode : string → jwt_outcome.

Local Abbreviation on_event := (dispatch ObjectId oid_str jwt_decode).
Local Abbreviation run_events := (run ObjectId oid_str jwt_decode).

Implicit Types (E : @env oid) (s : @state oid) (sid : string) (data : payload).

Lemma wp_dispatch E sid i s (Q : @result oid unit → Prop) :
  wp (on_event E sid i) s Q → Q (on_event E sid i s).
Proof. done. Qed.

(** Opens the handler of each event and walks through it. *)
Ltac all_events i :=
  destruct i;
  unfold dispatch, socketio_token_required, handle_authenticate,
    handle_join_room, handle_leave_room, handle_send_message, handle_typing,
    handle_stop_typing, handle_disconnect;
  cbv zeta; wp_run.

(** *** Persisted data only grows *)

Lemma same_user_refl (u : @user_doc oid) : same_user u u.
Proof. done. Qed.

Lemma room_grown_refl (r : @room_doc oid) : room_grown r r.
Proof. by repeat split. Qed.

Lemma room_grown_trans (r1 r2 r3 : @room_doc oid) :
  room_grown r1 r2 → room_grown r2 r3 → room_grown r1 r3.
Proof.
  intros (?&?&?&?&?) (?&?&?&?&?). repeat split; try congruence.
  by etrans.
Qed.

Lemma same_user_trans (u1 u2 u3 : @user_doc oid) :
  same_user u1 u2 → same_user u2 u3 → same_user u1 u3.
Proof. intros (?&?&?) (?&?&?). repeat split; congruence. Qed.

Lemma Forall2_update_first {A} (R : A → A → Prop) p f (l : list A) :
  (∀ x, R x x) → (∀ x, R x (f x)) → Forall2 R l (update_first p f l).
Proof.
  intros Hrefl Hf. induction l as [|x l IH]; simpl; [constructor|].
  destruct (p x); constructor; auto.
  clear IH. induction l; constructor; auto.
Qed.

Lemma persisted_grows_refl s : persisted_grows s s.
Proof.
  repeat split; [| |done].
  - induction (users_collection s); constructor; auto using same_user_refl.
  - induction (rooms_collection s); constructor; auto using room_grown_refl.
Qed.

Lemma persisted_grows_trans s1 s2 s3 :
  persisted_grows s1 s2 → persisted_grows s2 s3 → persisted_grows s1 s3.
Proof.
  intros (Hu1 & Hr1 & Hm1) (Hu2 & Hr2 & Hm2). repeat split.
  - eapply Forall2_trans; [|done..]. apply same_user_trans.
  - eapply Forall2_trans; [|done..]. apply room_grown_trans.
  - by etrans.
Qed.

Lemma persisted_grows_status s o b now :
  persisted_grows s
    (set_users (update_first (λ u, bool_decide (u_id u = o))
                  (with_status b now)) s).
Proof.
  destruct (persisted_grows_refl s) as (Hu & Hr & Hm).
  repeat split; [|done|done]. simpl.
  apply Forall2_update_first; [apply same_user_refl|done].
Qed.

Lemma persisted_grows_member s o m :
  persisted_grows s
    (set_rooms (update_first (λ r, bool_decide (r_id r = o))
                  (with_member m)) s).
Proof.
  destruct (persisted_grows_refl s) as (Hu & Hr & Hm).
  repeat split; [done| |done]. simpl.
  apply Forall2_update_first; [apply room_grown_refl|].
  intros r. repeat split. by apply prefix_app_r.
Qed.

Lemma persisted_grows_message s doc :
  persisted_grows s (set_messages (λ l, l ++ [doc]) s).
Proof.
  destruct (persisted_grows_refl s) as (Hu & Hr & Hm).
  repeat split; [done|done|]. simpl. by apply prefix_app_r.
Qed.

Lemma persisted_grows_volatile s s' :
  users_collection s' = users_collection s →
  rooms_collection s' = rooms_collection s →
  messages_collection s' = messages_collection s →
  persisted_grows s s'.
Proof.
  intros Hu Hr Hm. destruct (persisted_grows_refl s) as (? & ? & ?).
  unfold persisted_grows. by rewrite Hu, Hr, Hm.
Qed.

Lemma Forall2_same {A} (R : A → A → Prop) (l : list A) :
  (∀ x, R x x) → Forall2 R l l.
Proof. intros HR. induction l; constructor; auto. Qed.

Ltac solve_grows :=
  unfold persisted_grows; state_simpl;
  split; [|split];
  first
    [ apply Forall2_update_first;
        [ first [apply same_user_refl | apply room_grown_refl]
        | intros ?; repeat split; by apply prefix_app_r ]
    | apply Forall2_same;
        first [apply same_user_refl | apply room_grown_refl]
    | by apply prefix_app_r
    | done ].

Lemma dispatch_persisted_grows E sid i s :
  persisted_grows s (final (on_event E sid i s)).
Proof.
  apply (wp_dispatch E sid i s (λ r, persisted_grows s (final r))).
  all_events i; solve_grows.
Qed.

(** X1. Whatever socket events arrive, from whatever connections and under
    whatever database failures, nothing persisted is lost or rewritten: the
    users and the rooms stay the same documents in the same order (only the
    status fields of users change, and rooms only gain members at the end of
    their list), and the messages already stored stay first, in order. *)
Theorem socket_events_keep_persisted_data events s :
  persisted_grows s (fst (run_events events s)).
Proof.
  revert s. induction events as [|[[E sid] i] events IH]; intros s.
  - apply persisted_grows_refl.
  - simpl. specialize (IH (final (on_event E sid i s))).
    destruct (run ObjectId oid_str jwt_decode events _) as [s' out]. simpl in *.
    eapply persisted_grows_trans; [apply dispatch_persisted_grows|done].
Qed.

(** *** An event touches only its own connection *)

Lemma subscribers_fmap_difference (m : gmap string (gset string)) sid room :
  ((λ members, members ∖ {[ sid ]}) <$> m) !!! room = (m !!! room) ∖ {[ sid ]}.
Proof.
  rewrite !lookup_total_alt, lookup_fmap.
  destruct (m !! room); simpl; [done|]. set_solver.
Qed.

Ltac solve_untouched :=
  let sid' := fresh "sid'" in
  let Hne := fresh "Hne" in
  intros sid' Hne; unfold subscribers_of; state_simpl;
  rewrite ?lookup_insert_ne, ?lookup_delete_ne by done;
  split; [done|]; split; [done|]; split;
  [ try done; set_solver
  | let room := fresh "room" in
    intros room;
    rewrite ?subscribers_fmap_difference, ?lookup_total_insert;
    repeat case_decide; try done; set_solver ].

(** X2. An event of the connection [sid] leaves alone what belongs to every
    other connection: its session, its entry of [active_users], whether it
    is connected, and its subscriptions to rooms. *)
Theorem event_touches_only_its_connection E sid i s :
  others_untouched sid s (final (on_event E sid i s)).
Proof.
  apply (wp_dispatch E sid i s (λ r, others_untouched sid s (final r))).
  all_events i; solve_untouched.
Qed.

(** *** One event keeps members distinct *)

Lemma Forall_update_first_find {A} (P : A → Prop) p f (l : list A) :
  Forall P l →
  (∀ x, find p l = Some x → P x → P (f x)) →
  Forall P (update_first p f l).
Proof.
  induction 1 as [|x l Hx Hl IH]; intros Hf; simpl; [constructor|].
  simpl in Hf. destruct (p x).
  - constructor; [by apply Hf|done].
  - constructor; [done|]. by apply IH.
Qed.

Lemma existsb_member_false (uid : oid) (ms : list (@member oid)) :
  existsb (λ m, bool_decide (mb_user_id m = uid)) ms = false →
  uid ∉ map mb_user_id ms.
Proof.
  induction ms as [|m ms IH]; simpl; [intros _; apply not_elem_of_nil|].
  intros [Hm Hms]%orb_false_iff.
  apply bool_decide_eq_false in Hm.
  rewrite elem_of_cons. intros [->|Hin]; [done|]. by apply IH.
Qed.

Lemma members_distinct_push (uid : oid) now role (r : @room_doc oid) :
  existsb (λ m, bool_decide (mb_user_id m = uid)) (r_members r) = false →
  NoDup (map mb_user_id (r_members r)) →
  NoDup (map mb_user_id
           (r_members (with_member {| mb_user_id := uid;
                                      mb_joined_at := now;
                                      mb_role := role |} r))).
Proof.
  intros Hnot Hnd. simpl. rewrite map_app. apply NoDup_app.
  split; [done|]. split; [|apply NoDup_singleton].
  intros x Hx [->|Hin%elem_of_nil]%elem_of_cons; [|done].
  by apply (existsb_member_false _ _ Hnot).
Qed.

(** X3. One socket event keeps the members of every room distinct: when
    no room lists a user twice among its members before the event is
    handled, none does once it has been handled, whatever the event;
    join_room pushes a member only when the user was not one in the room
    it looked up.  This is about one event handled on its own, not about
    handlers of several events running at once. *)
Theorem socket_event_keeps_members_distinct E sid i s :
  members_distinct s → members_distinct (final (on_event E sid i s)).
Proof.
  intros Hs.
  apply (wp_dispatch E sid i s (λ r, members_distinct (final r))).
  all_events i; unfold members_distinct in *; state_simpl; try done.
  apply Forall_update_first_find; [done|].
  intros found Hfound Hnd.
  match goal with
  | Hfind : find _ (rooms_collection s) = Some ?room |- _ =>
      rewrite Hfind in Hfound; injection Hfound as <-
  end.
  apply members_distinct_push; [|done].
  by apply negb_true_iff.
Qed.

End Invariants.

(** ** Error paths and compositions of the handlers *)

Section Paths.

Context {oid : Type} `{EqDecision oid}.
Variable ObjectId : string → option oid.
Variable oid_str : oid → string.
Variable jwt_decode : string → jwt_outcome.

Local Abbreviation on_event := (dispatch ObjectId oid_str jwt_decode).
Local Abbreviation guard := (socketio_token_required ObjectId).
Local Abbreviation bound := (bound_user ObjectId).

Implicit Types (E : @env oid) (s : @state oid) (sid : string) (data : payload).

Lemma wp_elim {A} (c : @M oid A) s (Q : result A → Prop) : wp c s Q → Q (c s).
Proof. done. Qed.

(** Simplifies the tests of a handler once the facts about its input have
    been rewritten. *)
Ltac tests_simpl :=
  cbn [Py.truthy_opt Py.truthy negb orb andb default from_option id].

(** Closes a path of a handler that the facts at hand exclude, or whose
    result is the expected one. *)
Ltac contradict_tests :=
  match goal with
  | H : negb ?b = true, H' : ?b = true |- _ =>
      rewrite H' in H; discriminate H
  | H : negb ?b = false, H' : ?b = false |- _ =>
      rewrite H' in H; discriminate H
  | H : ?b = true, H' : ?b = false |- _ => rewrite H' in H; discriminate H
  end.

Ltac close_path := simplify_eq; first [done | contradict_tests].

(** *** authenticate *)

(** X5. The ways authenticate is refused: with no token (or an empty one),
    with a token that does not verify (expired, invalid, or without a user
    id), with a user id that is not an ObjectId, and with the id of no stored
    user.  In each case the connection gets one auth_error, nothing is
    broadcast and the state is unchanged. *)
Theorem authenticate_rejections E sid data s :
  (Py.truthy_opt (data !! "token") = false →
   on_event E sid (Authenticate data) s =
     mkResult (Ret tt) s
       [Emit (auth_error (Literal "Token required")) ToSelf {[ sid ]}])
  ∧ (∀ token,
       data !! "token" = Some token →
       Py.truthy token = true →
       jwt_decode token = ExpiredSignatureError
       ∨ jwt_decode token = InvalidTokenError
       ∨ jwt_decode token = Decoded "" →
       on_event E sid (Authenticate data) s =
         mkResult (Ret tt) s
           [Emit (auth_error (Literal "Invalid token")) ToSelf {[ sid ]}])
  ∧ (∀ token user_id,
       data !! "token" = Some token →
       Py.truthy token = true →
       jwt_decode token = Decoded user_id →
       Py.truthy user_id = true →
       ObjectId user_id = None →
       on_event E sid (Authenticate data) s =
         mkResult (Ret tt) s
           [Emit (auth_error (StrOf (InvalidId user_id))) ToSelf {[ sid ]}])
  ∧ (∀ token user_id o,
       data !! "token" = Some token →
       Py.truthy token = true →
       jwt_decode token = Decoded user_id →
       Py.truthy user_id = true →
       ObjectId user_id = Some o →
       db_fault E UsersFindOne = None →
       find (λ u, bool_decide (u_id u = o)) (users_collection s) = None →
       on_event E sid (Authenticate data) s =
         mkResult (Ret tt) s
           [Emit (auth_error (Literal "User not found")) ToSelf {[ sid ]}]).
Proof.
  split; [|split; [|split]].
  - intros Ht. apply wp_elim. unfold dispatch, handle_authenticate. cbv zeta.
    rewrite Ht. tests_simpl. by wp_run.
  - intros token Hd Ht Hj. apply wp_elim.
    unfold dispatch, handle_authenticate, verify_token. cbv zeta.
    rewrite Hd. tests_simpl. rewrite Ht. tests_simpl.
    destruct Hj as [->|[->| ->]]; tests_simpl; by wp_run.
  - intros token user_id Hd Ht Hj Hu Ho. apply wp_elim.
    unfold dispatch, handle_authenticate, verify_token. cbv zeta.
    rewrite Hd. tests_simpl. rewrite Ht. tests_simpl.
    rewrite Hj. tests_simpl. rewrite Hu. tests_simpl.
    wp_run; by simplify_eq.
  - intros token user_id o Hd Ht Hj Hu Ho Hf Hfind. apply wp_elim.
    unfold dispatch, handle_authenticate, verify_token. cbv zeta.
    rewrite Hd. tests_simpl. rewrite Ht. tests_simpl.
    rewrite Hj. tests_simpl. rewrite Hu. tests_simpl.
    wp_run; by simplify_eq.
Qed.

(** X6. When the token verifies to a stored user but the update of the
    user's status raises, authenticate answers auth_error and broadcasts
    nothing, yet the session of the connection is already bound to the
    user: the events guarded by [socketio_token_required] are accepted from
    then on, while [active_users] has no entry for the connection. *)
Theorem authenticate_update_failure_binds_session
    E sid data s token user_id o user msg :
  data !! "token" = Some token →
  Py.truthy token = true →
  jwt_decode token = Decoded user_id →
  Py.truthy user_id = true →
  ObjectId user_id = Some o →
  db_fault E UsersFindOne = None →
  find (λ u, bool_decide (u_id u = o)) (users_collection s) = Some user →
  db_fault E UsersUpdateOne = Some msg →
  on_event E sid (Authenticate data) s =
    mkResult (Ret tt)
      (set_session (<[ sid := {| ad_user_id := user_id;
                                 ad_username := u_username user |} ]>) s)
      [Emit (auth_error (StrOf (PyMongoError msg))) ToSelf {[ sid ]}]
  ∧ bound (final (on_event E sid (Authenticate data) s)) sid = Some user
  ∧ active_users (final (on_event E sid (Authenticate data) s)) !! sid
      = active_users s !! sid.
Proof.
  intros Hd Ht Hj Hu Ho Hf Hfind Hup.
  assert (on_event E sid (Authenticate data) s =
            mkResult (Ret tt)
              (set_session (<[ sid := {| ad_user_id := user_id;
                                         ad_username := u_username user |} ]>)
                 s)
              [Emit (auth_error (StrOf (PyMongoError msg))) ToSelf {[ sid ]}])
    as ->.
  { apply wp_elim. unfold dispatch, handle_authenticate, verify_token. cbv zeta.
    rewrite Hd. tests_simpl. rewrite Ht. tests_simpl.
    rewrite Hj. tests_simpl. rewrite Hu. tests_simpl.
    wp_run; by simplify_eq. }
  split; [done|]. split; [|done].
  unfold bound_user. cbn [final set_session session users_collection].
  rewrite lookup_insert_eq. cbn [ad_user_id]. by rewrite Hu, Ho.
Qed.

(** *** The decorator *)

(** X7. The other two refusals of [socketio_token_required]: a session whose
    user id is not an ObjectId gets "Invalid user ID", and a session whose
    user is no longer stored gets "User not found"; the handler is not run
    and the state is unchanged. *)
Theorem guarded_event_rejections E sid g data s a :
  session s !! sid = Some a →
  Py.truthy (ad_user_id a) = true →
  (ObjectId (ad_user_id a) = None →
   on_event E sid (guarded_inbound g data) s =
     mkResult (Ret tt) s
       [Emit (error (Literal "Invalid user ID")) ToSelf {[ sid ]}])
  ∧ (∀ o,
       ObjectId (ad_user_id a) = Some o →
       db_fault E UsersFindOne = None →
       find (λ u, bool_decide (u_id u = o)) (users_collection s) = None →
       on_event E sid (guarded_inbound g data) s =
         mkResult (Ret tt) s
           [Emit (error (Literal "User not found")) ToSelf {[ sid ]}]).
Proof.
  intros Ha Ht. split.
  - intros Ho. apply wp_elim.
    destruct g; unfold dispatch, guarded_inbound, socketio_token_required;
      cbv zeta; wp_run; close_path.
  - intros o Ho Hf Hfind. apply wp_elim.
    destruct g; unfold dispatch, guarded_inbound, socketio_token_required;
      cbv zeta; wp_run; close_path.
Qed.

(** *** join_room *)

(** X8. The ways join_room is refused: no room_id (or an empty one), a
    room_id that is not an ObjectId, and the id of no stored room.  In each
    case the connection gets one error, nobody else is notified, and neither
    the members nor the subscriptions change. *)
Theorem join_room_rejections E sid data s u :
  bound s sid = Some u →
  db_fault E UsersFindOne = None →
  (Py.truthy_opt (data !! "room_id") = false →
   on_event E sid (JoinRoom data) s =
     mkResult (Ret tt) s
       [Emit (error (Literal "Room ID required")) ToSelf {[ sid ]}])
  ∧ (∀ room_id,
       data !! "room_id" = Some room_id →
       Py.truthy room_id = true →
       ObjectId room_id = None →
       on_event E sid (JoinRoom data) s =
         mkResult (Ret tt) s
           [Emit (error (Literal "Invalid room ID")) ToSelf {[ sid ]}])
  ∧ (∀ room_id o,
       data !! "room_id" = Some room_id →
       Py.truthy room_id = true →
       ObjectId room_id = Some o →
       db_fault E RoomsFindOne = None →
       find (λ r, bool_decide (r_id r = o)) (rooms_collection s) = None →
       on_event E sid (JoinRoom data) s =
         mkResult (Ret tt) s
           [Emit (error (Literal "Room not found")) ToSelf {[ sid ]}]).
Proof.
  intros Hb Hf. unfold dispatch.
  rewrite (token_required_pass ObjectId E sid _ data s u Hb Hf).
  split; [|split].
  - intros Hr. apply wp_elim. unfold handle_join_room. cbv zeta.
    rewrite Hr. tests_simpl. by wp_run.
  - intros room_id Hr Ht Ho. apply wp_elim. unfold handle_join_room.
    cbv zeta. rewrite Hr. tests_simpl. rewrite Ht. tests_simpl.
    wp_run; by simplify_eq.
  - intros room_id o Hr Ht Ho Hrf Hfind. apply wp_elim.
    unfold handle_join_room. cbv zeta. rewrite Hr. tests_simpl.
    rewrite Ht. tests_simpl. wp_run; by simplify_eq.
Qed.

Lemma handle_join_room_member E sid u data s room_id o room :
  data !! "room_id" = Some room_id →
  Py.truthy room_id = true →
  ObjectId room_id = Some o →
  db_fault E RoomsFindOne = None →
  find (λ r, bool_decide (r_id r = o)) (rooms_collection s) = Some room →
  is_member (u_id u) room = true →
  handle_join_room ObjectId oid_str E sid u data s =
    mkResult (Ret tt)
      (set_sio_rooms
         (λ m, <[ room_id := {[ sid ]} ∪ m !!! room_id ]> m) s)
      [ Emit (room_joined room_id (r_name room)) ToSelf {[ sid ]};
        Emit (user_joined_room (oid_str (u_id u)) (u_username u)
                (u_display_name u) room_id)
             (ToRoomOthers room_id)
             (subscribers_of s room_id ∖ {[ sid ]}) ].
Proof.
  intros Hr Ht Ho Hrf Hfind Hm. apply wp_elim.
  unfold handle_join_room. cbv zeta. rewrite Hr. tests_simpl.
  rewrite Ht. tests_simpl. unfold is_member in Hm.
  wp_run; try close_path. simplify_eq.
  unfold after, deliver, subscribers_of. cbn [res final effects app].
  state_simpl. rewrite lookup_total_insert_eq.
    assert (({[sid]} ∪ sio_rooms s !!! room_id) ∖ {[sid]}
            = sio_rooms s !!! room_id ∖ {[sid]}) as ->; [|done].
    apply set_eq. intros x.
    rewrite !elem_of_difference, elem_of_union. tauto.
Qed.

(** X9. join_room by an identity that is already a member of the room
    writes nothing to the database: it only subscribes the connection and
    emits room_joined and user_joined_room. *)
Theorem join_room_by_member_only_subscribes
    E sid data s u room_id o room :
  bound s sid = Some u →
  db_fault E UsersFindOne = None →
  data !! "room_id" = Some room_id →
  Py.truthy room_id = true →
  ObjectId room_id = Some o →
  db_fault E RoomsFindOne = None →
  find (λ r, bool_decide (r_id r = o)) (rooms_collection s) = Some room →
  is_member (u_id u) room = true →
  persisted (final (on_event E sid (JoinRoom data) s)) = persisted s
  ∧ subscribers_of (final (on_event E sid (JoinRoom data) s)) room_id
      = {[ sid ]} ∪ subscribers_of s room_id
  ∧ effects (on_event E sid (JoinRoom data) s) =
      [ Emit (room_joined room_id (r_name room)) ToSelf {[ sid ]};
        Emit (user_joined_room (oid_str (u_id u)) (u_username u)
                (u_display_name u) room_id)
             (ToRoomOthers room_id)
             (subscribers_of s room_id ∖ {[ sid ]}) ].
Proof.
  intros Hb Hf Hr Ht Ho Hrf Hfind Hm. unfold dispatch.
  rewrite (token_required_pass ObjectId E sid _ data s u Hb Hf).
  rewrite (handle_join_room_member E sid u data s room_id o room
             Hr Ht Ho Hrf Hfind Hm).
  split; [done|]. split; [|done].
  unfold subscribers_of. state_simpl. cbn [final sio_rooms set_sio_rooms].
  by rewrite lookup_total_insert_eq.
Qed.

Lemma find_update_first {A} (p : A → bool) (f : A → A) (l : list A) :
  (∀ x, p (f x) = p x) →
  find p (update_first p f l) = f <$> find p l.
Proof.
  intros Hp. induction l as [|x l IH]; simpl; [done|].
  destruct (p x) eqn:Hx; simpl.
  - by rewrite Hp, Hx.
  - by rewrite Hx.
Qed.

Lemma is_member_with_member (uid : oid) now role (r : @room_doc oid) :
  is_member uid
    (with_member {| mb_user_id := uid; mb_joined_at := now;
                    mb_role := role |} r) = true.
Proof.
  unfold is_member. simpl. rewrite existsb_app. simpl.
  rewrite bool_decide_eq_true_2 by done. by rewrite orb_true_r.
Qed.

(** X10. join_room adds a member at most once: after the join of a
    non-member, a second join of the same room by the same connection finds
    the identity among the members and leaves the rooms collection as it
    is. *)
Theorem join_room_twice_pushes_once
    E1 E2 sid data s u room_id o room :
  bound s sid = Some u →
  db_fault E1 UsersFindOne = None →
  db_fault E2 UsersFindOne = None →
  data !! "room_id" = Some room_id →
  Py.truthy room_id = true →
  ObjectId room_id = Some o →
  db_fault E1 RoomsFindOne = None →
  db_fault E2 RoomsFindOne = None →
  find (λ r, bool_decide (r_id r = o)) (rooms_collection s) = Some room →
  is_member (u_id u) room = false →
  db_fault E1 RoomsUpdateOne = None →
  find (λ r, bool_decide (r_id r = o))
       (rooms_collection (final (on_event E1 sid (JoinRoom data) s)))
    = Some (with_member {| mb_user_id := u_id u; mb_joined_at := utcnow E1;
                           mb_role := "member" |} room)
  ∧ persisted (final (on_event E2 sid (JoinRoom data)
                        (final (on_event E1 sid (JoinRoom data) s))))
    = persisted (final (on_event E1 sid (JoinRoom data) s)).
Proof.
  intros Hb Hf1 Hf2 Hr Ht Ho Hrf1 Hrf2 Hfind Hm Hup.
  assert (final (on_event E1 sid (JoinRoom data) s) =
            mkState (users_collection s)
              (update_first (λ r, bool_decide (r_id r = o))
                 (with_member {| mb_user_id := u_id u;
                                 mb_joined_at := utcnow E1;
                                 mb_role := "member" |})
                 (rooms_collection s))
              (messages_collection s) (active_users s) (session s)
              (connections s)
              (<[ room_id := {[ sid ]} ∪ subscribers_of s room_id ]>
                 (sio_rooms s))) as Hs1.
  { unfold dispatch.
    rewrite (token_required_pass ObjectId E1 sid _ data s u Hb Hf1).
    by rewrite (handle_join_room_adds_nonmember ObjectId oid_str jwt_decode
                  E1 sid u data s room_id o room Hr Ht Ho Hrf1 Hfind Hm
                  Hup). }
  rewrite Hs1.
  assert (find (λ r, bool_decide (r_id r = o))
            (update_first (λ r, bool_decide (r_id r = o))
               (with_member {| mb_user_id := u_id u;
                               mb_joined_at := utcnow E1;
                               mb_role := "member" |})
               (rooms_collection s))
          = Some (with_member {| mb_user_id := u_id u;
                                 mb_joined_at := utcnow E1;
                                 mb_role := "member" |} room)) as Hfind1.
  { rewrite find_update_first by done. by rewrite Hfind. }
  split; [done|].
  eapply join_room_by_member_only_subscribes; try done.
  apply is_member_with_member.
Qed.

(** *** leave_room and send_message *)

(** X11. leave_room with no room_id (or an empty one) is refused with "Room
    ID required": no subscription changes and nobody is notified. *)
Theorem leave_room_requires_room_id E sid data s u :
  bound s sid = Some u →
  db_fault E UsersFindOne = None →
  Py.truthy_opt (data !! "room_id") = false →
  on_event E sid (LeaveRoom data) s =
    mkResult (Ret tt) s
      [Emit (error (Literal "Room ID required")) ToSelf {[ sid ]}].
Proof.
  intros Hb Hf Hr. unfold dispatch.
  rewrite (token_required_pass ObjectId E sid _ data s u Hb Hf).
  apply wp_elim. unfold handle_leave_room. cbv zeta.
  rewrite Hr. tests_simpl. by wp_run.
Qed.

(** X12. The ways send_message is refused besides a blank content: no
    room_id, a room_id that is not an ObjectId, and the id of no stored
    room.  In each case the sender gets one error, nothing is inserted and
    nothing is broadcast. *)
Theorem send_message_rejections E sid data s u :
  bound s sid = Some u →
  db_fault E UsersFindOne = None →
  (Py.truthy_opt (data !! "room_id") = false →
   on_event E sid (SendMessage data) s =
     mkResult (Ret tt) s
       [Emit (error (Literal "Room ID and content are required"))
          ToSelf {[ sid ]}])
  ∧ (∀ room_id,
       data !! "room_id" = Some room_id →
       Py.truthy room_id = true →
       Py.strip (default "" (data !! "content")) ≠ "" →
       ObjectId room_id = None →
       on_event E sid (SendMessage data) s =
         mkResult (Ret tt) s
           [Emit (error (Literal "Invalid room ID")) ToSelf {[ sid ]}])
  ∧ (∀ room_id o,
       data !! "room_id" = Some room_id →
       Py.truthy room_id = true →
       Py.strip (default "" (data !! "content")) ≠ "" →
       ObjectId room_id = Some o →
       db_fault E RoomsFindOne = None →
       find (λ r, bool_decide (r_id r = o)) (rooms_collection s) = None →
       on_event E sid (SendMessage data) s =
         mkResult (Ret tt) s
           [Emit (error (Literal "Room not found")) ToSelf {[ sid ]}]).
Proof.
  intros Hb Hf. unfold dispatch.
  rewrite (token_required_pass ObjectId E sid _ data s u Hb Hf).
  split; [|split].
  - intros Hr. apply wp_elim. unfold handle_send_message. cbv zeta.
    rewrite Hr. tests_simpl. by wp_run.
  - intros room_id Hr Ht Hc Ho. apply wp_elim.
    unfold handle_send_message. cbv zeta. rewrite Hr. tests_simpl.
    rewrite Ht. tests_simpl.
    destruct (Py.strip _) as [|c rest] eqn:Hs; [done|]. tests_simpl.
    wp_run; close_path.
  - intros room_id o Hr Ht Hc Ho Hrf Hfind. apply wp_elim.
    unfold handle_send_message. cbv zeta. rewrite Hr. tests_simpl.
    rewrite Ht. tests_simpl.
    destruct (Py.strip _) as [|c rest] eqn:Hs; [done|]. tests_simpl.
    wp_run; close_path.
Qed.

(** *** typing and stop_typing *)

(** X13. typing and stop_typing never change the state, whatever they carry;
    on an authenticated connection, with a room_id that is not the
    identifier of another connection, the event goes to the subscribers of
    that room other than the sender, whether or not the room is a stored
    room and whether or not the sender is subscribed to it. *)
Theorem typing_goes_to_other_subscribers E sid data s :
  final (on_event E sid (Typing data) s) = s
  ∧ final (on_event E sid (StopTyping data) s) = s
  ∧ ∀ u room_id,
      bound s sid = Some u →
      db_fault E UsersFindOne = None →
      data !! "room_id" = Some room_id →
      Py.truthy room_id = true →
      room_id ∉ connections s ∖ {[ sid ]} →
      effects (on_event E sid (Typing data) s) =
        [Emit (user_typing (oid_str (u_id u)) (u_username u)
                 (u_display_name u) room_id)
              (ToRoomOthers room_id) (subscribers_of s room_id ∖ {[ sid ]})]
      ∧ effects (on_event E sid (StopTyping data) s) =
        [Emit (user_stop_typing (oid_str (u_id u)) (u_username u)
                 (u_display_name u) room_id)
              (ToRoomOthers room_id) (subscribers_of s room_id ∖ {[ sid ]})].
Proof.
  split; [|split].
  - apply (wp_elim _ s (λ r, final r = s)).
    unfold dispatch, socketio_token_required, handle_typing. cbv zeta.
    by wp_run.
  - apply (wp_elim _ s (λ r, final r = s)).
    unfold dispatch, socketio_token_required, handle_stop_typing. cbv zeta.
    by wp_run.
  - intros u room_id Hb Hf Hr Ht _. unfold dispatch.
    rewrite !(token_required_pass ObjectId E sid _ data s u Hb Hf).
    unfold handle_typing, handle_stop_typing. rewrite Hr. tests_simpl.
    by rewrite Ht.
Qed.

(** *** disconnect *)

(** X15. When the update of the user's status raises during disconnect, the
    exception leaves the handler: user_offline is not broadcast and the
    entry of the connection stays in [active_users]. *)
Theorem disconnect_update_failure_keeps_entry E sid s ud o msg :
  active_users s !! sid = Some ud →
  ObjectId (ud_user_id ud) = Some o →
  db_fault E UsersUpdateOne = Some msg →
  handle_disconnect ObjectId E sid s
    = mkResult (Raise (PyMongoError msg)) s [].
Proof.
  intros Ha Ho Hup. apply wp_elim. unfold handle_disconnect. cbv zeta.
  wp_run; close_path.
Qed.

End Paths.

(** ** The further properties on the concrete deployment *)

Lemma socket_event_keeps_members_distinct_witness :
  members_distinct Demo.s_two_users
  ∧ is_member Demo.bob_id Demo.general = false
  ∧ members_distinct
      (final (Demo.dispatch (Demo.E 5 "") "s2"
                (JoinRoom (Demo.room Demo.general_id)) Demo.s_two_users))
  ∧ map (λ r, map mb_user_id (r_members r))
      (rooms_collection
         (final (Demo.dispatch (Demo.E 5 "") "s2"
                   (JoinRoom (Demo.room Demo.general_id)) Demo.s_two_users)))
    = [[Demo.alice_id; Demo.bob_id]; [Demo.alice_id]].
Proof.
  assert (members_distinct Demo.s_two_users) as Hs.
  { repeat constructor; by_evaluation || (intros []%elem_of_nil). }
  split; [exact Hs|]. split; [by_evaluation|]. split; [|by_evaluation].
  apply (socket_event_keeps_members_distinct Demo.ObjectId Demo.oid_str
           Demo.jwt_decode (Demo.E 5 "") "s2"
           (JoinRoom (Demo.room Demo.general_id)) Demo.s_two_users Hs).
Defined.

Lemma authenticate_rejections_witness :
  Demo2.dispatch (Demo.E 1 "") "s1" (Authenticate ∅) Demo.s_two_users
    = mkResult (Ret tt) Demo.s_two_users
        [Emit (auth_error (Literal "Token required")) ToSelf {[ "s1" ]}]
  ∧ Demo2.dispatch (Demo.E 1 "") "s1"
      (Authenticate (Demo.token "old-token")) Demo.s_two_users
    = mkResult (Ret tt) Demo.s_two_users
        [Emit (auth_error (Literal "Invalid token")) ToSelf {[ "s1" ]}]
  ∧ Demo2.dispatch (Demo.E 1 "") "s1"
      (Authenticate (Demo.token "token-with-bad-id")) Demo.s_two_users
    = mkResult (Ret tt) Demo.s_two_users
        [Emit (auth_error (StrOf (InvalidId "not-an-object-id")))
           ToSelf {[ "s1" ]}]
  ∧ Demo2.dispatch (Demo.E 1 "") "s1"
      (Authenticate (Demo.token "token-of-nobody")) Demo.s_two_users
    = mkResult (Ret tt) Demo.s_two_users
        [Emit (auth_error (Literal "User not found")) ToSelf {[ "s1" ]}].
Proof.
  split; [|split; [|split]].
  - destruct (authenticate_rejections Demo.ObjectId Demo.oid_str
                Demo2.jwt_decode (Demo.E 1 "") "s1" ∅ Demo.s_two_users)
      as (Hnone & _).
    apply Hnone. by_evaluation.
  - destruct (authenticate_rejections Demo.ObjectId Demo.oid_str
                Demo2.jwt_decode (Demo.E 1 "") "s1" (Demo.token "old-token")
                Demo.s_two_users) as (_ & Hinvalid & _).
    apply (Hinvalid "old-token"); [by_evaluation..|left; by_evaluation].
  - destruct (authenticate_rejections Demo.ObjectId Demo.oid_str
                Demo2.jwt_decode (Demo.E 1 "") "s1"
                (Demo.token "token-with-bad-id") Demo.s_two_users)
      as (_ & _ & Hbad & _).
    apply (Hbad "token-with-bad-id"); by_evaluation.
  - destruct (authenticate_rejections Demo.ObjectId Demo.oid_str
                Demo2.jwt_decode (Demo.E 1 "") "s1"
                (Demo.token "token-of-nobody") Demo.s_two_users)
      as (_ & _ & _ & Hnobody).
    apply (Hnobody "token-of-nobody" Demo2.nobody_id Demo2.nobody_id);
      by_evaluation.
Defined.

Lemma authenticate_update_failure_binds_session_witness :
  db_fault (Demo2.E_update_down 9) UsersUpdateOne = Some "connection refused"
  ∧ session Demo.s_second_tab_open !! "s2" = None
  ∧ Demo.dispatch (Demo2.E_update_down 9) "s2"
      (Authenticate (Demo.token "token-of-bob")) Demo.s_second_tab_open
    = mkResult (Ret tt)
        (set_session
           (<[ "s2" := {| ad_user_id := Demo.bob_id; ad_username := "bob" |} ]>)
           Demo.s_second_tab_open)
        [Emit (auth_error (StrOf (PyMongoError "connection refused")))
           ToSelf {[ "s2" ]}]
  ∧ bound_user Demo.ObjectId
      (final (Demo.dispatch (Demo2.E_update_down 9) "s2"
                (Authenticate (Demo.token "token-of-bob"))
                Demo.s_second_tab_open)) "s2"
    = Some Demo.bob.
Proof.
  split; [by_evaluation|]. split; [by_evaluation|].
  destruct (authenticate_update_failure_binds_session Demo.ObjectId
              Demo.oid_str Demo.jwt_decode (Demo2.E_update_down 9) "s2"
              (Demo.token "token-of-bob") Demo.s_second_tab_open
              "token-of-bob" Demo.bob_id Demo.bob_id Demo.bob
              "connection refused")
    as (Hres & Hbound & _); [by_evaluation..|].
  split; [exact Hres|exact Hbound].
Defined.

Lemma guarded_event_rejections_witness :
  Demo.dispatch (Demo.E 1 "") "s1" (Typing (Demo.room Demo.general_id))
    Demo2.s_stale_sessions
    = mkResult (Ret tt) Demo2.s_stale_sessions
        [Emit (error (Literal "Invalid user ID")) ToSelf {[ "s1" ]}]
  ∧ Demo.dispatch (Demo.E 1 "") "s2" (JoinRoom (Demo.room Demo.general_id))
      Demo2.s_stale_sessions
    = mkResult (Ret tt) Demo2.s_stale_sessions
        [Emit (error (Literal "User not found")) ToSelf {[ "s2" ]}].
Proof.
  split.
  - destruct (guarded_event_rejections Demo.ObjectId Demo.oid_str
                Demo.jwt_decode (Demo.E 1 "") "s1" GTyping
                (Demo.room Demo.general_id) Demo2.s_stale_sessions
                {| ad_user_id := "not-an-object-id"; ad_username := "x" |})
      as [Hinvalid _]; [by_evaluation..|].
    apply Hinvalid. by_evaluation.
  - destruct (guarded_event_rejections Demo.ObjectId Demo.oid_str
                Demo.jwt_decode (Demo.E 1 "") "s2" GJoinRoom
                (Demo.room Demo.general_id) Demo2.s_stale_sessions
                {| ad_user_id := Demo.bob_id; ad_username := "bob" |})
      as [_ Hgone]; [by_evaluation..|].
    apply (Hgone Demo.bob_id); by_evaluation.
Defined.

Lemma join_room_rejections_witness :
  bound_user Demo.ObjectId Demo.s_two_users "s2" = Some Demo.bob_online
  ∧ Demo.dispatch (Demo.E 5 "") "s2" (JoinRoom ∅) Demo.s_two_users
    = mkResult (Ret tt) Demo.s_two_users
        [Emit (error (Literal "Room ID required")) ToSelf {[ "s2" ]}]
  ∧ Demo.dispatch (Demo.E 5 "") "s2" (JoinRoom (Demo.room "AB12CD34"))
      Demo.s_two_users
    = mkResult (Ret tt) Demo.s_two_users
        [Emit (error (Literal "Invalid room ID")) ToSelf {[ "s2" ]}]
  ∧ Demo.dispatch (Demo.E 5 "") "s2"
      (JoinRoom (Demo.room Demo2.unknown_room)) Demo.s_two_users
    = mkResult (Ret tt) Demo.s_two_users
        [Emit (error (Literal "Room not found")) ToSelf {[ "s2" ]}].
Proof.
  split; [by_evaluation|].
  split; [|split].
  - destruct (join_room_rejections Demo.ObjectId Demo.oid_str Demo.jwt_decode
                (Demo.E 5 "") "s2" ∅ Demo.s_two_users Demo.bob_online)
      as (Hnone & _); [by_evaluation..|].
    apply Hnone. by_evaluation.
  - destruct (join_room_rejections Demo.ObjectId Demo.oid_str Demo.jwt_decode
                (Demo.E 5 "") "s2" (Demo.room "AB12CD34") Demo.s_two_users
                Demo.bob_online) as (_ & Hinvalid & _); [by_evaluation..|].
    apply (Hinvalid "AB12CD34"); by_evaluation.
  - destruct (join_room_rejections Demo.ObjectId Demo.oid_str Demo.jwt_decode
                (Demo.E 5 "") "s2" (Demo.room Demo2.unknown_room)
                Demo.s_two_users Demo.bob_online)
      as (_ & _ & Hunknown); [by_evaluation..|].
    apply (Hunknown Demo2.unknown_room Demo2.unknown_room); by_evaluation.
Defined.

Lemma join_room_by_member_only_subscribes_witness :
  is_member Demo.alice_id Demo.secret = true
  ∧ persisted (final (Demo.dispatch (Demo.E 5 "") "s1"
                        (JoinRoom (Demo.room Demo.secret_id))
                        Demo.s_two_users))
    = persisted Demo.s_two_users
  ∧ effects (Demo.dispatch (Demo.E 5 "") "s1"
               (JoinRoom (Demo.room Demo.secret_id)) Demo.s_two_users)
    = [ Emit (room_joined Demo.secret_id "Secret") ToSelf {[ "s1" ]};
        Emit (user_joined_room Demo.alice_id "alice" "Alice" Demo.secret_id)
             (ToRoomOthers Demo.secret_id) ∅ ].
Proof.
  split; [by_evaluation|].
  destruct (join_room_by_member_only_subscribes Demo.ObjectId Demo.oid_str
              Demo.jwt_decode (Demo.E 5 "") "s1" (Demo.room Demo.secret_id)
              Demo.s_two_users Demo.alice_online Demo.secret_id
              Demo.secret_id Demo.secret)
    as (Hpersisted & _ & Heffects); [by_evaluation..|].
  split; [exact Hpersisted|].
  unfold Demo.dispatch. rewrite Heffects. by_evaluation.
Defined.

Lemma join_room_twice_pushes_once_witness :
  is_member Demo.bob_id Demo.general = false
  ∧ find (λ r, bool_decide (r_id r = Demo.general_id))
      (rooms_collection
         (final (Demo.dispatch (Demo.E 5 "") "s2"
                   (JoinRoom (Demo.room Demo.general_id)) Demo.s_two_users)))
    = Some (with_member (Demo.bob_member 5) Demo.general)
  ∧ persisted
      (final (Demo.dispatch (Demo.E 6 "") "s2"
                (JoinRoom (Demo.room Demo.general_id))
                (final (Demo.dispatch (Demo.E 5 "") "s2"
                          (JoinRoom (Demo.room Demo.general_id))
                          Demo.s_two_users))))
    = persisted
        (final (Demo.dispatch (Demo.E 5 "") "s2"
                  (JoinRoom (Demo.room Demo.general_id)) Demo.s_two_users)).
Proof.
  split; [by_evaluation|].
  apply (join_room_twice_pushes_once Demo.ObjectId Demo.oid_str
           Demo.jwt_decode (Demo.E 5 "") (Demo.E 6 "") "s2"
           (Demo.room Demo.general_id) Demo.s_two_users Demo.bob_online
           Demo.general_id Demo.general_id Demo.general); by_evaluation.
Defined.

Lemma leave_room_requires_room_id_witness :
  bound_user Demo.ObjectId Demo.s_both_in_general "s1"
    = Some Demo.alice_online
  ∧ Demo.dispatch (Demo.E 7 "") "s1" (LeaveRoom ∅) Demo.s_both_in_general
    = mkResult (Ret tt) Demo.s_both_in_general
        [Emit (error (Literal "Room ID required")) ToSelf {[ "s1" ]}].
Proof.
  split; [by_evaluation|].
  apply (leave_room_requires_room_id Demo.ObjectId Demo.oid_str
           Demo.jwt_decode (Demo.E 7 "") "s1" ∅ Demo.s_both_in_general
           Demo.alice_online); by_evaluation.
Defined.

Lemma send_message_rejections_witness :
  Demo.dispatch (Demo.E 7 "") "s1" (SendMessage {[ "content" := "hi" ]})
    Demo.s_both_in_general
    = mkResult (Ret tt) Demo.s_both_in_general
        [Emit (error (Literal "Room ID and content are required"))
           ToSelf {[ "s1" ]}]
  ∧ Demo.dispatch (Demo.E 7 "") "s1" (SendMessage (Demo.text "General" "hi"))
      Demo.s_both_in_general
    = mkResult (Ret tt) Demo.s_both_in_general
        [Emit (error (Literal "Invalid room ID")) ToSelf {[ "s1" ]}]
  ∧ Demo.dispatch (Demo.E 7 "") "s1"
      (SendMessage (Demo.text Demo2.unknown_room "hi")) Demo.s_both_in_general
    = mkResult (Ret tt) Demo.s_both_in_general
        [Emit (error (Literal "Room not found")) ToSelf {[ "s1" ]}].
Proof.
  split; [|split].
  - destruct (send_message_rejections Demo.ObjectId Demo.oid_str
                Demo.jwt_decode (Demo.E 7 "") "s1" {[ "content" := "hi" ]}
                Demo.s_both_in_general Demo.alice_online)
      as (Hnone & _); [by_evaluation..|].
    apply Hnone. by_evaluation.
  - destruct (send_message_rejections Demo.ObjectId Demo.oid_str
                Demo.jwt_decode (Demo.E 7 "") "s1" (Demo.text "General" "hi")
                Demo.s_both_in_general Demo.alice_online)
      as (_ & Hinvalid & _); [by_evaluation..|].
    apply (Hinvalid "General"); by_evaluation.
  - destruct (send_message_rejections Demo.ObjectId Demo.oid_str
                Demo.jwt_decode (Demo.E 7 "") "s1"
                (Demo.text Demo2.unknown_room "hi") Demo.s_both_in_general
                Demo.alice_online)
      as (_ & _ & Hunknown); [by_evaluation..|].
    apply (Hunknown Demo2.unknown_room Demo2.unknown_room); by_evaluation.
Defined.

Lemma typing_goes_to_other_subscribers_witness :
  bound_user Demo.ObjectId Demo.s_both_in_general "s1"
    = Some Demo.alice_online
  ∧ (Demo.general_id ∉ connections Demo.s_both_in_general ∖ {[ "s1" ]})
  ∧ effects (Demo.dispatch (Demo.E 7 "") "s1"
               (Typing (Demo.room Demo.general_id)) Demo.s_both_in_general)
    = [Emit (user_typing Demo.alice_id "alice" "Alice" Demo.general_id)
            (ToRoomOthers Demo.general_id) {[ "s2" ]}]
  ∧ effects (Demo.dispatch (Demo.E 7 "") "s1"
               (StopTyping (Demo.room Demo.general_id))
               Demo.s_both_in_general)
    = [Emit (user_stop_typing Demo.alice_id "alice" "Alice" Demo.general_id)
            (ToRoomOthers Demo.general_id) {[ "s2" ]}].
Proof.
  split; [by_evaluation|]. split; [by_evaluation|].
  destruct (typing_goes_to_other_subscribers Demo.ObjectId Demo.oid_str
              Demo.jwt_decode (Demo.E 7 "") "s1" (Demo.room Demo.general_id)
              Demo.s_both_in_general) as (_ & _ & Hemit).
  destruct (Hemit Demo.alice_online Demo.general_id)
    as [Htyping Hstop]; [by_evaluation..|].
  unfold Demo.dispatch. rewrite Htyping, Hstop. split; by_evaluation.
Defined.

Lemma disconnect_update_failure_keeps_entry_witness :
  active_users Demo.s_two_users !! "s1"
    = Some {| ud_user_id := Demo.alice_id; ud_username := "alice";
              ud_display_name := "Alice" |}
  ∧ handle_disconnect Demo.ObjectId (Demo2.E_update_down 9) "s1"
      Demo.s_two_users
    = mkResult (Raise (PyMongoError "connection refused")) Demo.s_two_users [].
Proof.
  split; [by_evaluation|].
  apply (disconnect_update_failure_keeps_entry Demo.ObjectId
           (Demo2.E_update_down 9) "s1" Demo.s_two_users
           {| ud_user_id := Demo.alice_id; ud_username := "alice";
              ud_display_name := "Alice" |} Demo.alice_id
           "connection refused"); by_evaluation.
Defined.

Lemma event_touches_only_its_connection_witness :
  "s1" ≠ "s2"
  ∧ session (final (Demo.dispatch (Demo.E 7 "") "s2" Disconnect
                      Demo.s_both_in_general)) !! "s1"
    = session Demo.s_both_in_general !! "s1"
  ∧ active_users (final (Demo.dispatch (Demo.E 7 "") "s2" Disconnect
                           Demo.s_both_in_general)) !! "s1"
    = active_users Demo.s_both_in_general !! "s1".
Proof.
  split; [by_evaluation|].
  destruct (event_touches_only_its_connection Demo.ObjectId Demo.oid_str
              Demo.jwt_decode (Demo.E 7 "") "s2" Disconnect
              Demo.s_both_in_general "s1") as (Hsession & Hactive & _);
    [by_evaluation|].
  split; [exact Hsession|exact Hactive].
Defined.

(** ** Properties of the REST routes *)

Lemma is_code_char_choice i : is_code_char (choice i) = true.
Proof. do 36 (destruct i as [|i]; [reflexivity|]). reflexivity. Qed.

Lemma isspace_choice i : Py.isspace (choice i) = false.
Proof. do 36 (destruct i as [|i]; [reflexivity|]). reflexivity. Qed.

Lemma candidate_length rand k : String.length (candidate rand k) = 8.
Proof. reflexivity. Qed.

Lemma candidate_all_code_chars rand k : all_code_chars (candidate rand k) = true.
Proof.
  unfold candidate. cbn [seq map string_of_list_ascii all_code_chars].
  by rewrite !is_code_char_choice.
Qed.

Lemma candidate_strip rand k : Py.strip (candidate rand k) = candidate rand k.
Proof.
  unfold candidate, Py.strip, Py.rstrip.
  cbn [seq map string_of_list_ascii Py.lstrip].
  rewrite isspace_choice.
  unfold String.rev; cbn [String.rev_app Py.lstrip].
  rewrite isspace_choice.
  reflexivity.
Qed.

Lemma prefix_append (p t : string) : String.prefix p (String.append p t) = true.
Proof.
  induction p as [|c p IH].
  - change (String.append "" t) with t. by destruct t.
  - change (String.append (String c p) t) with (String c (String.append p t)).
    cbn [String.prefix]. destruct (ascii_dec c c); [done|congruence].
Qed.

Lemma str_drop_append (p t : string) :
  str_drop (String.length p) (String.append p t) = t.
Proof.
  induction p as [|c p IH].
  - change (String.append "" t) with t. by destruct t.
  - change (String.append (String c p) t) with (String c (String.append p t)).
    done.
Qed.

Section RestProperties.

Context {oid : Type} `{EqDecision oid}.
Variable ObjectId : string → option oid.
Variable oid_str : oid → string.
Variable jwt_decode : string → jwt_outcome.
Variable upper : string → string.

Local Abbreviation guard_request := (token_required ObjectId jwt_decode).
Local Abbreviation join_by_id := (join_room_by_id oid_str upper).
Local Abbreviation create := (create_room oid_str).

Implicit Types (E : @env oid) (users : list (@user_doc oid))
  (rooms : list (@room_record oid)) (user : @user_doc oid).

(** *** token_required *)

(** X16. The [Bearer ] prefix of the Authorization header is optional: a
    non-empty token that does not itself start with [Bearer ] is treated the
    same with and without the prefix. *)
Theorem token_required_bearer_optional E users t :
  t ≠ "" →
  String.prefix "Bearer " t = false →
  guard_request E users (Some (String.append "Bearer " t))
  = guard_request E users (Some t).
Proof.
  intros Ht Hp. unfold token_required.
  cbn [Py.truthy_opt default from_option id].
  change (Py.truthy (String.append "Bearer " t)) with true.
  rewrite prefix_append, Hp.
  change 7 with (String.length "Bearer ").
  rewrite str_drop_append.
  by destruct t.
Qed.

(** X17. A route behind [token_required] runs only for a stored user: the
    header carries (with or without the prefix) a token that verifies to the
    text of that user's identifier, and the lookup did not fail. *)
Theorem token_required_passes_stored_user E users authorization u :
  guard_request E users authorization = Passed u →
  u ∈ users
  ∧ db_fault E UsersFindOne = None
  ∧ ∃ header token user_id,
      authorization = Some header
      ∧ (header = token ∨ header = String.append "Bearer " token)
      ∧ jwt_decode token = Decoded user_id
      ∧ ObjectId user_id = Some (u_id u).
Proof.
  unfold token_required. intros Hp.
  destruct authorization as [header|]; [|done].
  cbn [Py.truthy_opt default from_option id] in Hp.
  destruct (negb (Py.truthy header)); [done|].
  set (token := if String.prefix "Bearer " header then str_drop 7 header
                else header) in Hp.
  unfold verify_token in Hp.
  destruct (jwt_decode token) as [user_id| |] eqn:Hjwt; [|done..].
  cbn [Py.truthy_opt default from_option id] in Hp.
  destruct (negb (Py.truthy user_id)); [done|].
  destruct (ObjectId user_id) as [o|] eqn:Ho; [|done].
  destruct (db_fault E UsersFindOne) eqn:Hf; [done|].
  destruct (find _ users) as [user|] eqn:Hfind; [|done].
  injection Hp as ->.
  apply find_some in Hfind as [Hin Hid].
  apply bool_decide_eq_true in Hid. subst o.
  split; [by apply list_elem_of_In|]. split; [done|].
  exists header, token, user_id. repeat split; try done.
  subst token. destruct (String.prefix "Bearer " header) eqn:Hpre; [|by left].
  right. clear -Hpre.
  do 7 (destruct header as [|? header]; [done|]; cbn in Hpre;
        match type of Hpre with
        | (if ?d then _ else _) = _ => destruct d; [subst|done]
        end).
  reflexivity.
Qed.

(** *** generate_room_id *)

(** The identifier returned is one of the candidates drawn. *)
Lemma generate_room_id_candidate attempts rand k rooms c :
  generate_room_id attempts rand k rooms = Some c →
  ∃ k', c = candidate rand k' ∧ code_taken rooms c = false.
Proof.
  revert k. induction attempts as [|n IH]; intros k; [done|].
  cbn [generate_room_id].
  destruct (negb (code_taken rooms (candidate rand k))) eqn:Hfree.
  - intros [= <-]. exists k. split; [done|]. by apply negb_true_iff.
  - apply IH.
Qed.

(** X18. The identifier [generate_room_id] returns is the code of no stored
    room, and is made of eight characters among A-Z and 0-9, which [strip]
    leaves as they are. *)
Theorem generate_room_id_fresh attempts rand k rooms c :
  generate_room_id attempts rand k rooms = Some c →
  code_taken rooms c = false
  ∧ String.length c = 8
  ∧ all_code_chars c = true
  ∧ Py.strip c = c.
Proof.
  intros (k' & -> & Hfree)%generate_room_id_candidate.
  split; [done|]. split; [apply candidate_length|].
  split; [apply candidate_all_code_chars|apply candidate_strip].
Qed.

(** X19. The loop of [generate_room_id] ends at the first candidate that is
    the code of no stored room: if the [j]-th draw is free, the loop returns
    within [j + 1] rounds, with a candidate before which every one was
    taken. *)
Theorem generate_room_id_finds_free attempts rand k rooms j :
  (j < attempts)%nat →
  code_taken rooms (candidate rand (k + 8 * j)) = false →
  ∃ j', (j' ≤ j)%nat
    ∧ generate_room_id attempts rand k rooms
      = Some (candidate rand (k + 8 * j'))
    ∧ ∀ i, (i < j')%nat → code_taken rooms (candidate rand (k + 8 * i)) = true.
Proof.
  revert k j. induction attempts as [|n IH]; intros k j Hj Hfree; [lia|].
  cbn [generate_room_id].
  destruct (code_taken rooms (candidate rand k)) eqn:Htaken; cbn [negb].
  - destruct j as [|j].
    { replace (k + 8 * 0) with k in Hfree by lia. congruence. }
    destruct (IH (k + 8) j) as (j' & Hle & Hgen & Hbefore); [lia| |].
    { by replace (k + 8 + 8 * j) with (k + 8 * S j) by lia. }
    exists (S j'). split; [lia|]. split.
    + by replace (k + 8 * S j') with (k + 8 + 8 * j') by lia.
    + intros [|i] Hi.
      * by replace (k + 8 * 0) with k by lia.
      * replace (k + 8 * S i) with (k + 8 + 8 * i) by lia.
        apply Hbefore. lia.
  - exists 0. split; [lia|]. split.
    + by replace (k + 8 * 0) with k by lia.
    + intros i Hi. lia.
Qed.

(** *** join_room_by_id *)

Lemma record_grown_refl (r : @room_record oid) : record_grown r r.
Proof. split; [apply room_grown_refl|done]. Qed.

Lemma record_grown_push m (r : @room_record oid) :
  record_grown r (rr_push_member m r).
Proof. split; [|done]. repeat split. by apply prefix_app_r. Qed.

(** The route leaves the collection as it is, or takes the one path that
    changes it. *)
Lemma join_room_by_id_cases E user data rooms :
  (join_by_id E user data rooms).2 = rooms
  ∨ ∃ d code room,
    data = Some d ∧ d ≠ ∅
    ∧ d !! "room_id" = Some code ∧ Py.truthy code = true
    ∧ String.length (upper (Py.strip code)) = 8
    ∧ db_fault E RoomsFindOne = None
    ∧ find (private_room_with_code (upper (Py.strip code))) rooms = Some room
    ∧ is_member (u_id user) (rr_room room) = false
    ∧ join_by_id E user data rooms
      = (mkResponse 200
           (body_room "Successfully joined the private room!"
              (oid_str (r_id (rr_room room))) (r_name (rr_room room))
              (Some (rr_description room)) None
              (Some (upper (Py.strip code)))),
         update_first
           (λ r, bool_decide (r_id (rr_room r) = r_id (rr_room room)))
           (rr_push_member {| mb_user_id := u_id user;
                              mb_joined_at := utcnow E;
                              mb_role := "member" |})
           rooms).
Proof.
  unfold join_room_by_id. cbv zeta.
  destruct (negb (bool_decide (is_Some data ∧ default ∅ data ≠ ∅))
            || negb (Py.truthy_opt (default ∅ data !! "room_id")))
    eqn:Htest; [by left|].
  apply orb_false_iff in Htest as [Hdata Hcode].
  apply negb_false_iff, bool_decide_eq_true in Hdata as [[d ->] Hne].
  apply negb_false_iff in Hcode.
  cbn [default from_option id] in *.
  destruct (d !! "room_id") as [code|] eqn:Hlook; [|done].
  cbn [Py.truthy_opt default from_option id] in *.
  destruct (String.length (upper (Py.strip code)) =? 8)%nat eqn:Hlen;
    cbn [negb]; [|by left].
  apply Nat.eqb_eq in Hlen.
  destruct (db_fault E RoomsFindOne) eqn:Hfind_fault; [by left|].
  destruct (find _ rooms) as [room|] eqn:Hfind; [|by left].
  destruct (is_member (u_id user) (rr_room room)) eqn:Hmember; [by left|].
  destruct (db_fault E RoomsUpdateOne) eqn:Hupdate_fault; [by left|].
  right. by exists d, code, room.
Qed.

(** The only way the route changes the collection. *)
Lemma join_room_by_id_changed E user data rooms :
  (join_by_id E user data rooms).2 ≠ rooms →
  ∃ d code room,
    data = Some d ∧ d ≠ ∅
    ∧ d !! "room_id" = Some code ∧ Py.truthy code = true
    ∧ String.length (upper (Py.strip code)) = 8
    ∧ db_fault E RoomsFindOne = None
    ∧ find (private_room_with_code (upper (Py.strip code))) rooms = Some room
    ∧ is_member (u_id user) (rr_room room) = false
    ∧ join_by_id E user data rooms
      = (mkResponse 200
           (body_room "Successfully joined the private room!"
              (oid_str (r_id (rr_room room))) (r_name (rr_room room))
              (Some (rr_description room)) None
              (Some (upper (Py.strip code)))),
         update_first
           (λ r, bool_decide (r_id (rr_room r) = r_id (rr_room room)))
           (rr_push_member {| mb_user_id := u_id user;
                              mb_joined_at := utcnow E;
                              mb_role := "member" |})
           rooms).
Proof. intros Hne. by destruct (join_room_by_id_cases E user data rooms). Qed.

(** The answer to a user who is already a member. *)
Lemma join_room_by_id_member E user d code room rooms :
  d ≠ ∅ →
  d !! "room_id" = Some code → Py.truthy code = true →
  String.length (upper (Py.strip code)) = 8 →
  db_fault E RoomsFindOne = None →
  find (private_room_with_code (upper (Py.strip code))) rooms = Some room →
  is_member (u_id user) (rr_room room) = true →
  join_by_id E user (Some d) rooms
  = (mkResponse 200
       (body_room "You are already a member of this room"
          (oid_str (r_id (rr_room room))) (r_name (rr_room room))
          None None (Some (upper (Py.strip code)))),
     rooms).
Proof.
  intros Hne Hlook Hcode Hlen Hfault Hfind Hmember.
  unfold join_room_by_id. cbv zeta. cbn [default from_option id].
  rewrite Hlook. cbn [Py.truthy_opt default from_option id].
  rewrite Hcode, bool_decide_eq_true_2 by (split; [by eexists|done]).
  cbn [negb orb].
  rewrite Hlen, Hfault, Hfind, Hmember. done.
Qed.

(** X20. join_room_by_id never removes or rewrites a room: the collection
    keeps the same documents in the same order, and a document differs at
    most by members pushed at the end of its list. *)
Theorem join_room_by_id_only_adds_member E user data rooms :
  Forall2 record_grown rooms (join_by_id E user data rooms).2.
Proof.
  destruct (join_room_by_id_cases E user data rooms)
    as [->|(d & code & room & _ & _ & _ & _ & _ & _ & _ & _ & ->)].
  - apply Forall2_same, record_grown_refl.
  - cbn [snd]. apply Forall2_update_first;
      [apply record_grown_refl|intros; apply record_grown_push].
Qed.

(** X21. join_room_by_id adds a member only on presentation of the code of
    a room: when the collection changes, the request carried a room_id
    whose stripped, upper-cased text is the code of an active private room
    of which the user was not a member, and the answer is 200. *)
Theorem join_room_by_id_needs_code E user data rooms :
  (join_by_id E user data rooms).2 ≠ rooms →
  ∃ d code room,
    data = Some d
    ∧ d !! "room_id" = Some code
    ∧ room ∈ rooms
    ∧ r_room_id (rr_room room) = Some (upper (Py.strip code))
    ∧ r_type (rr_room room) = private
    ∧ rr_is_active room = true
    ∧ is_member (u_id user) (rr_room room) = false
    ∧ resp_status (join_by_id E user data rooms).1 = 200%Z.
Proof.
  intros (d & code & room & -> & _ & Hlook & _ & _ & _ & Hfind & Hmember & ->)
    %join_room_by_id_changed.
  apply find_some in Hfind as [Hin Hp].
  unfold private_room_with_code in Hp.
  apply andb_true_iff in Hp as [[Hcode Hty]%andb_true_iff Hactive].
  apply bool_decide_eq_true in Hcode.
  exists d, code, room. repeat split; try done.
  - by apply list_elem_of_In.
  - by destruct (r_type (rr_room room)).
Qed.

Lemma find_update_by_id (p : @room_record oid → bool) f rooms room :
  NoDup (map (λ r, r_id (rr_room r)) rooms) →
  find p rooms = Some room →
  (∀ r, p (f r) = p r) →
  find p (update_first
            (λ r, bool_decide (r_id (rr_room r) = r_id (rr_room room)))
            f rooms)
  = Some (f room).
Proof.
  intros Hnd Hfind Hp. induction rooms as [|x l IH]; [done|].
  cbn [find update_first] in *. apply NoDup_cons in Hnd as [Hx Hl].
  destruct (p x) eqn:Hpx.
  - injection Hfind as ->.
    rewrite bool_decide_eq_true_2 by done. cbn [find]. by rewrite Hp, Hpx.
  - rewrite bool_decide_eq_false_2.
    + cbn [find]. rewrite Hpx. by apply IH.
    + intros Heq. apply Hx. rewrite Heq.
      apply find_some in Hfind as [Hin _].
      apply list_elem_of_In in Hin.
      by apply (list_elem_of_fmap_2 (λ r, r_id (rr_room r))).
Qed.

(** X22. A join by code is not repeated: when the identifiers of the rooms
    are distinct and a request made the user a member, the same request
    again is answered "You are already a member of this room" and leaves
    the collection as the first one left it. *)
Theorem join_room_by_id_twice E E' user data rooms :
  NoDup (map (λ r, r_id (rr_room r)) rooms) →
  (join_by_id E user data rooms).2 ≠ rooms →
  db_fault E' RoomsFindOne = None →
  ∃ id name code,
    join_by_id E' user data (join_by_id E user data rooms).2
    = (mkResponse 200
         (body_room "You are already a member of this room" id name
            None None (Some code)),
       (join_by_id E user data rooms).2).
Proof.
  intros Hnd
    (d & code & room & -> & Hne & Hlook & Hcode & Hlen & _ & Hfind & _ & ->)
    %join_room_by_id_changed Hfault.
  cbn [snd]. do 3 eexists.
  eapply join_room_by_id_member; try done.
  - by apply find_update_by_id.
  - apply is_member_with_member.
Qed.

Lemma NoDup_map_eq {A B} (f : A → B) (l : list A) (x y : A) :
  NoDup (map f l) → x ∈ l → y ∈ l → f x = f y → x = y.
Proof.
  induction l as [|a l IH]; intros Hnd Hx Hy Heq.
  { by apply elem_of_nil in Hx. }
  cbn [map] in Hnd. apply NoDup_cons in Hnd as [Ha Hl].
  apply elem_of_cons in Hx as [->|Hx]; apply elem_of_cons in Hy as [->|Hy].
  - done.
  - exfalso. apply Ha. rewrite Heq. by apply (list_elem_of_fmap_2 f).
  - exfalso. apply Ha. rewrite <- Heq. by apply (list_elem_of_fmap_2 f).
  - by apply IH.
Qed.

(** X23. join_room_by_id keeps the members of every room distinct: when the
    identifiers of the rooms are distinct and no room lists a user twice,
    none does after the request, since the member is pushed to the very
    room in which the user was looked for. *)
Theorem join_room_by_id_keeps_members_distinct E user data rooms :
  NoDup (map (λ r, r_id (rr_room r)) rooms) →
  records_members_distinct rooms →
  records_members_distinct (join_by_id E user data rooms).2.
Proof.
  intros Hids Hdistinct.
  destruct (join_room_by_id_cases E user data rooms)
    as [->|(d & code & room & _ & _ & _ & _ & _ & _ & Hfind & Hmember & ->)];
    [done|].
  cbn [snd]. apply Forall_update_first_find; [done|].
  intros x Hx Hnd.
  apply find_some in Hx as [Hx Hid]. apply bool_decide_eq_true in Hid.
  apply find_some in Hfind as [Hroom _].
  apply list_elem_of_In in Hx, Hroom.
  assert (x = room) as ->
    by exact (NoDup_map_eq (λ r, r_id (rr_room r)) rooms x room
                Hids Hx Hroom Hid).
  by apply members_distinct_push.
Qed.

(** *** create_room *)

Lemma code_taken_false rooms c :
  code_taken rooms c = false → c ∉ room_codes rooms.
Proof.
  unfold code_taken, room_codes. induction rooms as [|x l IH]; cbn.
  - intros _. apply not_elem_of_nil.
  - intros [Hx Hl]%orb_false_iff. apply bool_decide_eq_false in Hx.
    destruct (r_room_id (rr_room x)) as [c'|]; cbn; [|by apply IH].
    rewrite elem_of_cons. intros [->|Hin]; [done|]. by apply IH.
Qed.

Lemma public_name_taken_false rooms name :
  public_name_taken rooms name = false → name ∉ public_names rooms.
Proof.
  unfold public_name_taken, public_names.
  induction rooms as [|x l IH]; cbn.
  - intros _. apply not_elem_of_nil.
  - intros [Hx Hl]%orb_false_iff.
    destruct (r_type (rr_room x)); cbn; [|by apply IH].
    rewrite andb_true_r in Hx. apply bool_decide_eq_false in Hx.
    rewrite elem_of_cons. intros [->|Hin]; [done|]. by apply IH.
Qed.

Lemma NoDup_snoc {A} (l : list A) (x : A) : NoDup l → x ∉ l → NoDup (l ++ [x]).
Proof.
  intros Hl Hx. apply NoDup_app. split; [done|]. split.
  - intros y Hy ->%list_elem_of_singleton. done.
  - apply NoDup_singleton.
Qed.

(** X24. create_room keeps the names of the public rooms distinct and the
    codes of the rooms distinct: when they are in the collection and the
    generator draws a free code within its rounds, the route returns, the
    collection it leaves has both properties again, and the rooms that were
    stored are still there, unchanged and first. *)
Theorem create_room_keeps_names_and_codes_distinct
    E insert_fault attempts rand user data rooms :
  NoDup (public_names rooms) →
  NoDup (room_codes rooms) →
  is_Some (generate_room_id attempts rand 0 rooms) →
  ∃ r rooms',
    create E insert_fault attempts rand user data rooms = Some (r, rooms')
    ∧ NoDup (public_names rooms')
    ∧ NoDup (room_codes rooms')
    ∧ rooms `prefix_of` rooms'.
Proof.
  intros Hnames Hcodes [c Hgen].
  unfold create_room. cbv zeta.
  destruct (_ || _); [by eexists _, rooms|].
  destruct (parse_room_type _) as [ty|]; [|by eexists _, rooms].
  destruct (db_fault E RoomsFindOne); [by eexists _, rooms|].
  destruct ty.
  - destruct (public_name_taken rooms _) eqn:Htaken; [by eexists _, rooms|].
    destruct insert_fault; [by eexists _, rooms|].
    eexists _, _. split; [done|].
    unfold public_names, room_codes. rewrite !omap_app. cbn.
    rewrite app_nil_r. split; [|split; [done|by apply prefix_app_r]].
    apply NoDup_snoc; [done|]. by apply public_name_taken_false.
  - rewrite Hgen. cbn.
    destruct insert_fault; [by eexists _, rooms|].
    eexists _, _. split; [done|].
    unfold public_names, room_codes. rewrite !omap_app. cbn.
    rewrite app_nil_r. split; [done|]. split; [|by apply prefix_app_r].
    apply NoDup_snoc; [done|].
    apply generate_room_id_candidate in Hgen as (_ & _ & Hfree).
    by apply code_taken_false.
Qed.

Lemma find_snoc {A} (p : A → bool) (l : list A) (x : A) :
  find p l = None → p x = true → find p (l ++ [x]) = Some x.
Proof.
  intros Hl Hx. induction l as [|y l IH]; cbn in *; [by rewrite Hx|].
  destruct (p y); [done|]. by apply IH.
Qed.

Lemma update_first_snoc {A} (p : A → bool) (f : A → A) (l : list A) (x : A) :
  Forall (λ y, p y = false) l → p x = true →
  update_first p f (l ++ [x]) = l ++ [f x].
Proof.
  intros Hl Hx. induction Hl as [|y l Hy Hl IH]; cbn; [by rewrite Hx|].
  by rewrite Hy, IH.
Qed.

Lemma code_taken_false_find rooms c :
  code_taken rooms c = false → find (private_room_with_code c) rooms = None.
Proof.
  unfold code_taken, private_room_with_code.
  induction rooms as [|x l IH]; cbn; [done|].
  intros [Hx Hl]%orb_false_iff. rewrite Hx. cbn. by apply IH.
Qed.

(** X25. The code create_room returns for a private room opens that room:
    when [upper] leaves text of A-Z and 0-9 as it is and the driver gave the
    room an identifier no stored room has, another user who sends the code
    to join_room_by_id is answered 200 and becomes the second member of
    the new room, after its creator, and no other room changes. *)
Theorem create_room_then_join_by_code
    E E' insert_fault attempts rand creator other data rooms
    st msg id name description ty c rooms' :
  (∀ s, all_code_chars s = true → upper s = s) →
  create E insert_fault attempts rand creator data rooms
  = Some (mkResponse st (body_room msg id name description ty (Some c)),
          rooms') →
  fresh_id E ∉ map (λ r, r_id (rr_room r)) rooms →
  u_id other ≠ u_id creator →
  db_fault E' RoomsFindOne = None →
  db_fault E' RoomsUpdateOne = None →
  ∃ r room,
    join_by_id E' other (Some {[ "room_id" := c ]}) rooms'
    = (r, rooms ++ [room])
    ∧ resp_status r = 200%Z
    ∧ r_id (rr_room room) = fresh_id E
    ∧ r_room_id (rr_room room) = Some c
    ∧ rr_owner_id room = u_id creator
    ∧ map (λ m, (mb_user_id m, mb_role m)) (r_members (rr_room room))
      = [(u_id creator, "admin"); (u_id other, "member")].
Proof.
  intros Hupper Hcreate Hfresh Hother Hfind_ok Hupdate_ok.
  unfold create_room in Hcreate. cbv zeta in Hcreate.
  destruct (_ || _); [done|].
  destruct (parse_room_type _) as [ty'|]; [|done].
  destruct (db_fault E RoomsFindOne); [done|].
  destruct ty'.
  { destruct (public_name_taken rooms _); [done|].
    by destruct insert_fault. }
  destruct (generate_room_id attempts rand 0 rooms) as [c'|] eqn:Hgen;
    [|done].
  cbn in Hcreate. destruct insert_fault; [done|].
  injection Hcreate as <- <- <- <- <- <- <- <-.
  apply generate_room_id_fresh in Hgen as (Hfree & Hlen & Hchars & Hstrip).
  assert (Py.truthy c' = true) as Htruthy by (by destruct c').
  unfold join_room_by_id. cbv zeta. cbn [default from_option id].
  rewrite lookup_singleton_eq. cbn [Py.truthy_opt default from_option id].
  rewrite Htruthy, bool_decide_eq_true_2
    by (split; [by eexists|apply insert_non_empty]).
  cbn [negb orb]. rewrite Hstrip, (Hupper c' Hchars), Hlen. cbn [Nat.eqb negb].
  rewrite Hfind_ok.
  erewrite find_snoc; cycle 1.
  { by apply code_taken_false_find. }
  { unfold private_room_with_code. cbn.
    by rewrite bool_decide_eq_true_2. }
  unfold is_member. cbn [new_room rr_room r_members existsb mb_user_id orb].
  rewrite bool_decide_eq_false_2 by done. cbn [orb].
  rewrite Hupdate_ok.
  rewrite update_first_snoc; cycle 1.
  { apply Forall_forall. intros y Hy. apply bool_decide_eq_false.
    cbn. intros Heq. apply Hfresh. rewrite <- Heq.
    by apply (list_elem_of_fmap_2 (λ r, r_id (rr_room r))). }
  { cbn. by apply bool_decide_eq_true_2. }
  eexists _, _. split; [done|]. by cbn.
Qed.

End RestProperties.

(** ** The properties of the REST routes on the concrete deployment *)

Lemma upper_char_code_char c :
  is_code_char c = true → DemoRest.upper_char c = c.
Proof. destruct c as [[] [] [] [] [] [] [] []]; by vm_compute. Qed.

Lemma upper_code_chars s : all_code_chars s = true → DemoRest.upper s = s.
Proof.
  induction s as [|c s IH]; [done|].
  cbn [all_code_chars DemoRest.upper].
  intros [Hc Hs]%andb_true_iff. by rewrite upper_char_code_char, IH.
Qed.

Lemma token_required_bearer_optional_witness :
  DemoRest.token_required (Demo.E 1 "") [Demo.alice; Demo.bob]
    (Some "Bearer token-of-alice")
  = DemoRest.token_required (Demo.E 1 "") [Demo.alice; Demo.bob]
      (Some "token-of-alice").
Proof.
  apply (token_required_bearer_optional Demo.ObjectId Demo.jwt_decode
           (Demo.E 1 "") [Demo.alice; Demo.bob] "token-of-alice");
    by_evaluation.
Defined.

Lemma token_required_passes_stored_user_witness :
  DemoRest.token_required (Demo.E 1 "") [Demo.alice; Demo.bob]
    (Some "Bearer token-of-bob") = Passed Demo.bob
  ∧ Demo.bob ∈ [Demo.alice; Demo.bob].
Proof.
  assert (DemoRest.token_required (Demo.E 1 "") [Demo.alice; Demo.bob]
            (Some "Bearer token-of-bob") = Passed Demo.bob) as Hpassed
    by by_evaluation.
  split; [exact Hpassed|].
  apply (token_required_passes_stored_user Demo.ObjectId Demo.jwt_decode
           (Demo.E 1 "") [Demo.alice; Demo.bob] (Some "Bearer token-of-bob")
           Demo.bob Hpassed).
Defined.

Lemma generate_room_id_fresh_witness :
  generate_room_id 3 DemoRest.rand 0 DemoRest.rooms = Some "IJKLMNOP"
  ∧ code_taken DemoRest.rooms "IJKLMNOP" = false
  ∧ String.length "IJKLMNOP" = 8
  ∧ all_code_chars "IJKLMNOP" = true
  ∧ Py.strip "IJKLMNOP" = "IJKLMNOP".
Proof.
  assert (generate_room_id 3 DemoRest.rand 0 DemoRest.rooms
          = Some "IJKLMNOP") as Hgen by by_evaluation.
  split; [exact Hgen|].
  apply (generate_room_id_fresh 3 DemoRest.rand 0 DemoRest.rooms "IJKLMNOP"
           Hgen).
Defined.

Lemma generate_room_id_finds_free_witness :
  code_taken DemoRest.rooms (candidate DemoRest.rand 0) = true
  ∧ code_taken DemoRest.rooms (candidate DemoRest.rand 8) = false
  ∧ ∃ j', (j' ≤ 1)%nat
      ∧ generate_room_id 2 DemoRest.rand 0 DemoRest.rooms
        = Some (candidate DemoRest.rand (0 + 8 * j'))
      ∧ ∀ i, (i < j')%nat →
          code_taken DemoRest.rooms (candidate DemoRest.rand (0 + 8 * i))
          = true.
Proof.
  split; [by_evaluation|]. split; [by_evaluation|].
  apply (generate_room_id_finds_free 2 DemoRest.rand 0 DemoRest.rooms 1);
    [lia|by_evaluation].
Defined.

Lemma join_room_by_id_needs_code_witness :
  (DemoRest.join_room_by_id (Demo.E 9 "") Demo.bob
     (DemoRest.code " ab12cd34 ") DemoRest.rooms).2 ≠ DemoRest.rooms
  ∧ ∃ d code room,
      DemoRest.code " ab12cd34 " = Some d
      ∧ d !! "room_id" = Some code
      ∧ room ∈ DemoRest.rooms
      ∧ r_room_id (rr_room room) = Some (DemoRest.upper (Py.strip code))
      ∧ r_type (rr_room room) = private
      ∧ rr_is_active room = true
      ∧ is_member (u_id Demo.bob) (rr_room room) = false
      ∧ resp_status
          (DemoRest.join_room_by_id (Demo.E 9 "") Demo.bob
             (DemoRest.code " ab12cd34 ") DemoRest.rooms).1 = 200%Z.
Proof.
  assert ((DemoRest.join_room_by_id (Demo.E 9 "") Demo.bob
             (DemoRest.code " ab12cd34 ") DemoRest.rooms).2 ≠ DemoRest.rooms)
    as Hchanged by by_evaluation.
  split; [exact Hchanged|].
  apply (join_room_by_id_needs_code Demo.oid_str DemoRest.upper (Demo.E 9 "")
           Demo.bob (DemoRest.code " ab12cd34 ") DemoRest.rooms Hchanged).
Defined.

Lemma join_room_by_id_twice_witness :
  (DemoRest.join_room_by_id (Demo.E 9 "") Demo.bob
     (DemoRest.code "ab12cd34") DemoRest.rooms).2 ≠ DemoRest.rooms
  ∧ ∃ id name code,
      DemoRest.join_room_by_id (Demo.E 10 "") Demo.bob
        (DemoRest.code "ab12cd34")
        (DemoRest.join_room_by_id (Demo.E 9 "") Demo.bob
           (DemoRest.code "ab12cd34") DemoRest.rooms).2
      = (mkResponse 200
           (body_room "You are already a member of this room" id name
              None None (Some code)),
         (DemoRest.join_room_by_id (Demo.E 9 "") Demo.bob
            (DemoRest.code "ab12cd34") DemoRest.rooms).2).
Proof.
  assert ((DemoRest.join_room_by_id (Demo.E 9 "") Demo.bob
             (DemoRest.code "ab12cd34") DemoRest.rooms).2 ≠ DemoRest.rooms)
    as Hchanged by by_evaluation.
  split; [exact Hchanged|].
  apply (join_room_by_id_twice Demo.oid_str DemoRest.upper (Demo.E 9 "")
           (Demo.E 10 "") Demo.bob (DemoRest.code "ab12cd34") DemoRest.rooms);
    [|exact Hchanged|by_evaluation].
  apply (bool_decide_unpack _). by_evaluation.
Defined.

Lemma join_room_by_id_keeps_members_distinct_witness :
  records_members_distinct DemoRest.rooms
  ∧ records_members_distinct
      (DemoRest.join_room_by_id (Demo.E 9 "") Demo.bob
         (DemoRest.code "ab12cd34") DemoRest.rooms).2.
Proof.
  assert (records_members_distinct DemoRest.rooms) as Hdistinct.
  { repeat constructor; by_evaluation || (intros []%elem_of_nil). }
  split; [exact Hdistinct|].
  apply (join_room_by_id_keeps_members_distinct Demo.oid_str DemoRest.upper
           (Demo.E 9 "") Demo.bob (DemoRest.code "ab12cd34") DemoRest.rooms);
    [|exact Hdistinct].
  apply (bool_decide_unpack _). by_evaluation.
Defined.

Lemma create_room_keeps_names_and_codes_distinct_witness :
  NoDup (public_names DemoRest.rooms)
  ∧ NoDup (room_codes DemoRest.rooms)
  ∧ ∃ r rooms',
      DemoRest.create_room (Demo.E 9 "00000000000000000000c003") None 3
        DemoRest.rand Demo.bob DemoRest.new_private DemoRest.rooms
      = Some (r, rooms')
      ∧ NoDup (public_names rooms')
      ∧ NoDup (room_codes rooms')
      ∧ DemoRest.rooms `prefix_of` rooms'.
Proof.
  assert (NoDup (public_names DemoRest.rooms)) as Hnames
    by (apply (bool_decide_unpack _); by_evaluation).
  assert (NoDup (room_codes DemoRest.rooms)) as Hcodes
    by (apply (bool_decide_unpack _); by_evaluation).
  split; [exact Hnames|]. split; [exact Hcodes|].
  apply (create_room_keeps_names_and_codes_distinct Demo.oid_str
           (Demo.E 9 "00000000000000000000c003") None 3 DemoRest.rand
           Demo.bob DemoRest.new_private DemoRest.rooms Hnames Hcodes).
  exists "IJKLMNOP". by_evaluation.
Defined.

Lemma create_room_then_join_by_code_witness :
  DemoRest.create_room (Demo.E 9 "00000000000000000000c003") None 3
    DemoRest.rand Demo.bob DemoRest.new_private DemoRest.rooms
  = Some (mkResponse 201
            (body_room "Room created successfully"
               "00000000000000000000c003" "Cellar" (Some "") (Some private)
               (Some "IJKLMNOP")),
          DemoRest.rooms
            ++ [new_room (Demo.E 9 "00000000000000000000c003") Demo.bob
                  "Cellar" "" private (Some "IJKLMNOP") None])
  ∧ ∃ r room,
      DemoRest.join_room_by_id (Demo.E 10 "") Demo.alice
        (Some {[ "room_id" := "IJKLMNOP" ]})
        (DemoRest.rooms
           ++ [new_room (Demo.E 9 "00000000000000000000c003") Demo.bob
                 "Cellar" "" private (Some "IJKLMNOP") None])
      = (r, DemoRest.rooms ++ [room])
      ∧ resp_status r = 200%Z
      ∧ r_id (rr_room room) = "00000000000000000000c003"
      ∧ r_room_id (rr_room room) = Some "IJKLMNOP"
      ∧ rr_owner_id room = Demo.bob_id
      ∧ map (λ m, (mb_user_id m, mb_role m)) (r_members (rr_room room))
        = [(Demo.bob_id, "admin"); (Demo.alice_id, "member")].
Proof.
  assert (DemoRest.create_room (Demo.E 9 "00000000000000000000c003") None 3
            DemoRest.rand Demo.bob DemoRest.new_private DemoRest.rooms
          = Some (mkResponse 201
                    (body_room "Room created successfully"
                       "00000000000000000000c003" "Cellar" (Some "")
                       (Some private) (Some "IJKLMNOP")),
                  DemoRest.rooms
                    ++ [new_room (Demo.E 9 "00000000000000000000c003")
                          Demo.bob "Cellar" "" private (Some "IJKLMNOP")
                          None])) as Hcreated by by_evaluation.
  split; [exact Hcreated|].
  apply (create_room_then_join_by_code Demo.oid_str DemoRest.upper
           (Demo.E 9 "00000000000000000000c003") (Demo.E 10 "") None 3
           DemoRest.rand Demo.bob Demo.alice DemoRest.new_private
           DemoRest.rooms 201 "Room created successfully"
           "00000000000000000000c003" "Cellar" (Some "") (Some private)
           "IJKLMNOP" _ upper_code_chars Hcreated);
    [|by_evaluation..].
  apply (bool_decide_unpack _). by_evaluation.
Defined.
